(** * Discord REST / webhook client: a shallow embedding of
      [src/Discord/Bot.ts] and [src/Discord/Webhooks.ts]

    The two classes are thin wrappers over an HTTP transport (axios), the
    local file system and the console.  The embedding keeps the three as
    explicit effects: every method is a computation in a small
    trace-and-exception monad, the transport and the file system are
    oracles of an environment record, and each call to them is recorded in
    the trace, so that "which requests were issued, in which order, and
    what was logged" is a statement about a list of events. *)

From Stdlib Require Import String Ascii List ZArith Bool Lia.
From Stdlib Require Import DecimalString Strings.Byte.
Import ListNotations.
Open Scope string_scope.
Set Warnings "-register-all".

(** ** JavaScript values

    Values that cross the transport are JSON; [JUndefined] is added for
    absent properties and omitted arguments.  [JNum n] is the number [n],
    an integer: the code compares numbers with [1], tests them for truth
    and prints them, and the text printed for an integer beyond the safe
    range is left to the environment.  An object is its table of own
    properties. *)

Inductive value : Type :=
| JUndefined
| JNull
| JBool (b : bool)
| JNum (n : Z)
| JStr (s : string)
| JArr (items : list value)
| JObj (fields : list (string * value)).

Fixpoint lookup (k : string) (fields : list (string * value)) : option value :=
  match fields with
  | [] => None
  | (k', v) :: rest => if String.eqb k k' then Some v else lookup k rest
  end.

(** JavaScript truthiness ([if (v)], [v ? a : b], [a || b], [!v]). *)
Definition truthy (v : value) : bool :=
  match v with
  | JUndefined | JNull => false
  | JBool b => b
  | JNum n => negb (Z.eqb n 0)
  | JStr s => negb (String.eqb s "")
  | JArr _ | JObj _ => true
  end.

Definition nullish (v : value) : bool :=
  match v with
  | JUndefined | JNull => true
  | _ => false
  end.

(** [v === n] for a number literal and [v === s] for a string. *)
Definition strict_eq_num (v : value) (n : Z) : bool :=
  match v with
  | JNum m => Z.eqb m n
  | _ => false
  end.

Definition strict_eq_str (v : value) (s : string) : bool :=
  match v with
  | JStr t => String.eqb t s
  | _ => false
  end.

Definition string_of_Z (n : Z) : string := NilZero.string_of_int (Z.to_int n).

(** ** Errors, requests and events *)

Record AxiosResponse : Type := mkResponse {
  status : Z;
  statusText : string;
  data : value
}.

Inductive error : Type :=
| AxiosError (message : string) (response : option AxiosResponse)
| TypeError (message : string)
| URIError (message : string)
| SystemError (code : string) (message : string)
| Error (message : string).

Definition error_message (e : error) : string :=
  match e with
  | AxiosError m _ => m
  | TypeError m => m
  | URIError m => m
  | SystemError _ m => m
  | Error m => m
  end.

Definition error_response (e : error) : option AxiosResponse :=
  match e with
  | AxiosError _ r => r
  | _ => None
  end.

Inductive method : Type := GET | POST | PUT | DELETE | PATCH.

Inductive form_part : Type :=
| FormFile (field : string) (content : list byte) (filename : string)
| FormText (field : string) (text : string).

Inductive body : Type :=
| NoBody
| JsonBody (v : value)
| FormBody (parts : list form_part).

Record request : Type := mkRequest {
  req_method : method;
  req_url : string;
  req_body : body;
  req_headers : list (string * string);
  req_responseType : option string
}.

(** What [console.log] / [console.error] receive. *)
Inductive logarg : Type :=
| LStr (s : string)
| LVal (v : value)
| LErr (e : error).

Inductive event : Type :=
| EvRequest (r : request)
| EvReadFile (path : string)
| EvStat (path : string)
| EvConsoleLog (args : list logarg)
| EvConsoleError (args : list logarg)
| EvUnhandledRejection (e : error).

Definition trace : Type := list event.

Definition is_request (ev : event) : option request :=
  match ev with
  | EvRequest r => Some r
  | _ => None
  end.

Fixpoint requests_of (tr : trace) : list request :=
  match tr with
  | [] => []
  | EvRequest r :: rest => r :: requests_of rest
  | _ :: rest => requests_of rest
  end.

(** ** The environment

    The transport and the file system answer as a function of the request
    and of everything that happened before, so that the same request may be
    answered differently at different times.  [chalk] is the colouring
    function of the terminal; [kb_to_string n] is the text JavaScript
    prints for the floating-point quotient [n / 1024]; [form_boundary] is
    the random boundary a multipart form picks; [number_to_string n] is
    the text JavaScript prints for a number beyond the safe integers
    (rounded to a double, in exponent form from [1e21] on);
    [buffer_from v] is [Buffer.from(v, 'binary')], which fails on what it
    cannot read as bytes. *)

Inductive color : Type := blue | red | green.

Record World : Type := mkWorld {
  axios : trace -> request -> error + AxiosResponse;
  readFileSync : trace -> string -> error + list byte;
  statSync : trace -> string -> error + Z;
  chalk : color -> string -> string;
  kb_to_string : Z -> string;
  form_boundary : trace -> string;
  number_to_string : Z -> string;
  buffer_from : value -> error + value
}.

(** ** The monad: a trace of events, and exceptions *)

Inductive outcome (A : Type) : Type :=
| Ok (a : A)
| Throw (e : error).
Arguments Ok {A} a.
Arguments Throw {A} e.

Definition M (A : Type) : Type := trace -> outcome A * trace.

Definition ret {A} (a : A) : M A := fun tr => (Ok a, tr).

Definition throw {A} (e : error) : M A := fun tr => (Throw e, tr).

Definition bind {A B} (m : M A) (k : A -> M B) : M B :=
  fun tr =>
    match m tr with
    | (Ok a, tr') => k a tr'
    | (Throw e, tr') => (Throw e, tr')
    end.

(** [try { m } catch (error) { h error }] *)
Definition try_catch {A} (m : M A) (h : error -> M A) : M A :=
  fun tr =>
    match m tr with
    | (Ok a, tr') => (Ok a, tr')
    | (Throw e, tr') => h e tr'
    end.

Definition emit (ev : event) : M unit := fun tr => (Ok tt, (tr ++ [ev])%list).

(** A pure expression that may throw, used inside a computation. *)
Definition lift {A} (o : outcome A) : M A := fun tr => (o, tr).

(** A promise that is started and never awaited: its effects happen, its
    result is dropped, and a rejection has no handler. *)
Definition detach {A} (m : M A) : M unit :=
  fun tr =>
    match m tr with
    | (Ok _, tr') => (Ok tt, tr')
    | (Throw e, tr') => (Ok tt, (tr' ++ [EvUnhandledRejection e])%list)
    end.

Declare Scope js_scope.
Delimit Scope js_scope with js.
Notation "x <- m ;; k" := (bind m (fun x => k))
  (at level 61, m at next level, right associativity) : js_scope.
Notation "m ;; k" := (bind m (fun _ => k))
  (at level 61, right associativity) : js_scope.
Open Scope js_scope.

Definition console_log (args : list logarg) : M unit := emit (EvConsoleLog args).
Definition console_error (args : list logarg) : M unit := emit (EvConsoleError args).

(** ** Property access

    Reading a property of [undefined] or [null] throws a [TypeError]; on any
    other value a property that is not there reads as [undefined].  The
    source reads only the data properties [type], [id], [recipients] and
    the index [0], none of which is a prototype member. *)

Definition nullish_name (v : value) : string :=
  match v with
  | JNull => "null"
  | _ => "undefined"
  end.

Definition cannot_read (v : value) (k : string) : error :=
  TypeError ("Cannot read properties of " ++ nullish_name v
             ++ " (reading '" ++ k ++ "')").

Definition get_prop (v : value) (k : string) : outcome value :=
  match v with
  | JUndefined | JNull => Throw (cannot_read v k)
  | JObj fields =>
      match lookup k fields with
      | Some x => Ok x
      | None => Ok JUndefined
      end
  | _ => Ok JUndefined
  end.

Definition get_index (v : value) (i : nat) : outcome value :=
  match v with
  | JUndefined | JNull => Throw (cannot_read v (string_of_Z (Z.of_nat i)))
  | JArr items => Ok (nth i items JUndefined)
  | JStr s =>
      match String.get i s with
      | Some c => Ok (JStr (String c EmptyString))
      | None => Ok JUndefined
      end
  | JObj fields =>
      match lookup (string_of_Z (Z.of_nat i)) fields with
      | Some x => Ok x
      | None => Ok JUndefined
      end
  | _ => Ok JUndefined
  end.

Definition obind {A B} (o : outcome A) (k : A -> outcome B) : outcome B :=
  match o with
  | Ok a => k a
  | Throw e => Throw e
  end.

(** [Array.prototype.find]: the first element the predicate accepts, or
    [undefined]; an exception of the predicate ends the scan. *)
Fixpoint js_find (p : value -> outcome bool) (l : list value) : outcome value :=
  match l with
  | [] => Ok JUndefined
  | x :: rest =>
      match p x with
      | Throw e => Throw e
      | Ok true => Ok x
      | Ok false => js_find p rest
      end
  end.

(** [error.response?.data || error.message] *)
Definition payload_or_message (e : error) : logarg :=
  match error_response e with
  | Some r => if truthy (data r) then LVal (data r) else LStr (error_message e)
  | None => LStr (error_message e)
  end.

(** ** String conversion

    [`${v}`] and every other implicit conversion to a string.  A number
    within the safe integers prints its decimal digits; beyond them the
    environment says what is printed.  An array joins the conversions of
    its elements with commas, [null] and [undefined] giving the empty
    string.  An object prints as [[object Object]] through
    [Object.prototype.toString], unless it has a [toString] property of
    its own: no value of this model is callable, so the conversion then
    finds no method that yields a primitive and throws. *)

Definition safe_integer (n : Z) : bool := Z.ltb (Z.abs n) (2 ^ 53).

Definition not_primitive : error :=
  TypeError "Cannot convert object to primitive value".

Fixpoint to_string (W : World) (v : value) : outcome string :=
  match v with
  | JUndefined => Ok "undefined"
  | JNull => Ok "null"
  | JBool true => Ok "true"
  | JBool false => Ok "false"
  | JNum n => Ok (if safe_integer n then string_of_Z n else number_to_string W n)
  | JStr s => Ok s
  | JArr items =>
      (fix join_items (l : list value) : outcome string :=
         match l with
         | [] => Ok ""
         | x :: rest =>
             obind (if nullish x then Ok "" else to_string W x) (fun s =>
             match rest with
             | [] => Ok s
             | _ :: _ => obind (join_items rest) (fun t => Ok (s ++ "," ++ t))
             end)
         end) items
  | JObj fields =>
      match lookup "toString" fields with
      | Some _ => Throw not_primitive
      | None => Ok "[object Object]"
      end
  end.

(** ** [encodeURIComponent]

    A string is held as its WTF-8 bytes: UTF-8 for a well-formed string,
    and the three bytes [ED A0..BF xx] for a surrogate code unit that is
    not part of a pair.  On such a lone surrogate the function throws a
    [URIError]; otherwise every byte outside the unreserved set
    [A-Z a-z 0-9 - _ . ! ~ * ' ( )] becomes [%XX]. *)

Definition hex_digit (n : nat) : ascii :=
  ascii_of_nat (if Nat.ltb n 10 then 48 + n else 55 + n).

Definition uri_unreserved (c : ascii) : bool :=
  let n := nat_of_ascii c in
  (Nat.leb 65 n && Nat.leb n 90) || (Nat.leb 97 n && Nat.leb n 122)
  || (Nat.leb 48 n && Nat.leb n 57)
  || existsb (Nat.eqb n) [45; 95; 46; 33; 126; 42; 39; 40; 41].

Fixpoint percent_encode (s : string) : string :=
  match s with
  | EmptyString => EmptyString
  | String c rest =>
      if uri_unreserved c then String c (percent_encode rest)
      else
        let n := nat_of_ascii c in
        String "%" (String (hex_digit (n / 16)) (String (hex_digit (n mod 16))
          (percent_encode rest)))
  end.

Fixpoint lone_surrogate (s : string) : bool :=
  match s with
  | EmptyString => false
  | String c rest =>
      (Nat.eqb (nat_of_ascii c) 237
       && match rest with
          | String d _ =>
              Nat.leb 160 (nat_of_ascii d) && Nat.leb (nat_of_ascii d) 191
          | EmptyString => false
          end)
      || lone_surrogate rest
  end.

Definition encodeURIComponent (s : string) : outcome string :=
  if lone_surrogate s then Throw (URIError "URI malformed")
  else Ok (percent_encode s).

Definition quote : string := String (ascii_of_nat 34) EmptyString.
Definition newline : string := String (ascii_of_nat 10) EmptyString.

(** A request as axios builds it from [(method, url, data, headers)]; an
    [undefined] body is not sent. *)
Definition body_of (d : value) : body :=
  match d with
  | JUndefined => NoBody
  | _ => JsonBody d
  end.

(** One call of the transport: the request is recorded and answered; the
    answer may depend on the events before it. *)
Definition call (W : World) (r : request) : M AxiosResponse :=
  fun tr =>
    match axios W tr r with
    | inr resp => (Ok resp, (tr ++ [EvRequest r])%list)
    | inl e => (Throw e, (tr ++ [EvRequest r])%list)
    end.

Definition read_file (W : World) (path : string) : M (list byte) :=
  fun tr =>
    match readFileSync W tr path with
    | inr bytes => (Ok bytes, (tr ++ [EvReadFile path])%list)
    | inl e => (Throw e, (tr ++ [EvReadFile path])%list)
    end.

Definition stat_size (W : World) (path : string) : M Z :=
  fun tr =>
    match statSync W tr path with
    | inr size => (Ok size, (tr ++ [EvStat path])%list)
    | inl e => (Throw e, (tr ++ [EvStat path])%list)
    end.

(** * The bot client, [src/Discord/Bot.ts] *)

Module Client.

Record t : Type := mk { token : string; logging : bool }.

Section WithWorld.
Variable W : World.

Definition logs_banner : string :=
  chalk W blue "LOGS" ++ " - logs are enabled by default" ++ newline
  ++ "     if you would like to disable logs, set" ++ newline
  ++ "     " ++ quote ++ (chalk W blue "log" ++ ": " ++ chalk W red "false")
  ++ quote ++ newline
  ++ "     in the " ++ chalk W blue "Client" ++ " constructor" ++ newline.

(** [constructor(token, logs = false)]; [None] is an omitted argument.
    Binding [sendMessage] to the instance changes nothing here: a method
    is always applied to its client. *)
Definition constructor (tok : string) (logs : option bool) : M t :=
  let logs := match logs with Some b => b | None => false end in
  let this := mk tok logs in
  if Bool.eqb (logging this) true then ret this
  else if Bool.eqb (logging this) false then
    console_log [LStr logs_banner] ;;
    ret (mk (token this) true)
  else ret this.

Definition api_v10 : string := "https://discord.com/api/v10".
Definition api_v9 : string := "https://discord.com/api/v9".

Definition dispatcher_headers (this : t) : list (string * string) :=
  [("Authorization", "Bot " ++ token this);
   ("Content-Type", "application/json")].

Definition auth_header (this : t) : list (string * string) :=
  [("Authorization", "Bot " ++ token this)].

Definition dispatcher_request (this : t) (endpoint : string) (m : method)
    (d : value) : request :=
  mkRequest m (api_v10 ++ endpoint) (body_of d) (dispatcher_headers this) None.

(** The response of a fulfilled call is an object, so the test
    [if (response)] around the logging always succeeds. *)
Definition makeRequest (this : t) (endpoint : string) (m : method)
    (d : value) : M value :=
  try_catch
    (response <- call W (dispatcher_request this endpoint m d) ;;
     (if logging this then
        console_log [LStr ("response sent to endpoint: " ++ chalk W green endpoint)]
      else ret tt) ;;
     ret (data response))
    (fun error =>
       console_error [LStr "Discord API Error:"; payload_or_message error] ;;
       throw error).

Inductive channel_type : Type := text | voice.
Inductive bot_status : Type := online | idle | dnd | invisible.

Definition channel_type_str (k : channel_type) : string :=
  match k with text => "text" | voice => "voice" end.

Definition bot_status_str (s : bot_status) : string :=
  match s with
  | online => "online" | idle => "idle" | dnd => "dnd" | invisible => "invisible"
  end.

(** The template literal is evaluated before the dispatcher is entered:
    a channel id that has no string conversion makes the call fail there. *)
Definition sendMessage (this : t) (channelId : value) (content : string) : M value :=
  let d := JObj [("content", JStr content)] in
  channel <- lift (to_string W channelId) ;;
  makeRequest this ("/channels/" ++ channel ++ "/messages") POST d.

Definition getUser (this : t) (userId : string) : M value :=
  makeRequest this ("/users/" ++ userId) GET JUndefined.

Definition getGuild (this : t) (guildId : string) : M value :=
  makeRequest this ("/guilds/" ++ guildId) GET JUndefined.

Definition createChannel (this : t) (guildId name : string) (type : channel_type)
    : M value :=
  let d := JObj [("name", JStr name); ("type", JStr (channel_type_str type))] in
  makeRequest this ("/guilds/" ++ guildId ++ "/channels") POST d.

Definition kickMember (this : t) (guildId userId : string) : M value :=
  makeRequest this ("/guilds/" ++ guildId ++ "/members/" ++ userId) DELETE JUndefined.

Definition getChannelMessages (this : t) (channelId : string) : M value :=
  makeRequest this ("/channels/" ++ channelId ++ "/messages") GET JUndefined.

Definition addReaction (this : t) (channelId messageId emoji : string) : M value :=
  encoded <- lift (encodeURIComponent emoji) ;;
  makeRequest this
    ("/channels/" ++ channelId ++ "/messages/" ++ messageId ++ "/reactions/"
     ++ encoded ++ "/@me")
    PUT JUndefined.

Definition removeReaction (this : t) (channelId messageId emoji userId : string)
    : M value :=
  encoded <- lift (encodeURIComponent emoji) ;;
  makeRequest this
    ("/channels/" ++ channelId ++ "/messages/" ++ messageId ++ "/reactions/"
     ++ encoded ++ "/" ++ userId)
    DELETE JUndefined.

Definition getMemberRoles (this : t) (guildId userId : string) : M value :=
  makeRequest this ("/guilds/" ++ guildId ++ "/members/" ++ userId) GET JUndefined.

Definition getGuildChannels (this : t) (guildId : string) : M value :=
  makeRequest this ("/guilds/" ++ guildId ++ "/channels") GET JUndefined.

Definition editMessage (this : t) (channelId messageId content : string) : M value :=
  let d := JObj [("content", JStr content)] in
  makeRequest this ("/channels/" ++ channelId ++ "/messages/" ++ messageId) PUT d.

Definition getMembers (this : t) (guildId : string) : M value :=
  makeRequest this ("/guilds/" ++ guildId ++ "/members") GET JUndefined.

Definition createEmoji (this : t) (guildId name image : string) : M value :=
  let d := JObj [("name", JStr name); ("image", JStr image)] in
  makeRequest this ("/guilds/" ++ guildId ++ "/emojis") POST d.

Definition getEmojis (this : t) (guildId : string) : M value :=
  makeRequest this ("/guilds/" ++ guildId ++ "/emojis") GET JUndefined.

Definition getRoles (this : t) (guildId : string) : M value :=
  makeRequest this ("/guilds/" ++ guildId ++ "/roles") GET JUndefined.

Definition deleteMessage (this : t) (channelId messageId : string) : M value :=
  makeRequest this ("/channels/" ++ channelId ++ "/messages/" ++ messageId)
    DELETE JUndefined.

Definition editRole (this : t) (guildId roleId : string) (d : value) : M value :=
  makeRequest this ("/guilds/" ++ guildId ++ "/roles/" ++ roleId) PATCH d.

Definition getRoleUsers (this : t) (guildId roleId : string) : M value :=
  makeRequest this ("/guilds/" ++ guildId ++ "/roles/" ++ roleId ++ "/members")
    GET JUndefined.

Definition editUsername (this : t) (username : string) : M value :=
  let d := JObj [("username", JStr username)] in
  makeRequest this "/users/@me" PATCH d.

Definition editAvatar (this : t) (avatar : string) : M value :=
  let d := JObj [("avatar", JStr avatar)] in
  makeRequest this "/users/@me" PATCH d.

Definition editStatus (this : t) (status : bot_status) : M value :=
  let d := JObj [("status", JStr (bot_status_str status))] in
  makeRequest this "/users/@me/settings" PATCH d.

Definition getBotGateway (this : t) : M value :=
  makeRequest this "/gateway/bot" GET JUndefined.

Definition info (this : t) : M value :=
  makeRequest this "/users/@me" GET JUndefined.

Definition getGuilds (this : t) : M value :=
  makeRequest this "/users/@me/guilds" GET JUndefined.

Definition leaveGuild (this : t) (guildId : string) : M value :=
  makeRequest this ("/users/@me/guilds/" ++ guildId) DELETE JUndefined.

Definition getConnections (this : t) : M value :=
  makeRequest this "/users/@me/connections" GET JUndefined.

(** *** The DM helpers: direct calls of the transport, API v9 *)

(** [channel.type === 1 && channel.recipients[0].id === userId] *)
Definition dm_predicate (userId : string) (channel : value) : outcome bool :=
  obind (get_prop channel "type") (fun ty =>
  if strict_eq_num ty 1 then
    obind (get_prop channel "recipients") (fun rs =>
    obind (get_index rs 0) (fun r0 =>
    obind (get_prop r0 "id") (fun i =>
    Ok (strict_eq_str i userId))))
  else Ok false).

(** [v.find(p)]: only an array has the method. *)
Definition array_find (p : value -> outcome bool) (v : value) : outcome value :=
  match v with
  | JArr items => js_find p items
  | JUndefined | JNull => Throw (cannot_read v "find")
  | _ => Throw (TypeError "response.data.find is not a function")
  end.

Definition dm_channels_url : string := api_v9 ++ "/users/@me/channels".

Definition dm_list_request (this : t) : request :=
  mkRequest GET dm_channels_url NoBody (auth_header this) None.

Definition dm_create_request (this : t) (userId : string) : request :=
  mkRequest POST dm_channels_url
    (JsonBody (JObj [("recipient_id", JStr userId)])) (auth_header this) None.

Definition isDmOpen (this : t) (userId : string) : M value :=
  try_catch
    (response <- call W (dm_list_request this) ;;
     dmChannel <- lift (array_find (dm_predicate userId) (data response)) ;;
     if truthy dmChannel then lift (get_prop dmChannel "id") else ret JNull)
    (fun error =>
       console_error [LStr "Error checking DM:"; payload_or_message error] ;;
       throw error).

Definition openOrGetDm (this : t) (userId : string) : M value :=
  try_catch
    (existingChannelId <- isDmOpen this userId ;;
     if truthy existingChannelId then ret existingChannelId
     else
       response <- call W (dm_create_request this userId) ;;
       channelId <- lift (get_prop (data response) "id") ;;
       ret channelId)
    (fun error =>
       console_error [LStr "Error opening DM:"; payload_or_message error] ;;
       throw error).

(** [this.sendMessage(user, message)] is not awaited. *)
Definition dm (this : t) (userId message : string) : M value :=
  try_catch
    (user <- openOrGetDm this userId ;;
     detach (sendMessage this user message) ;;
     ret JUndefined)
    (fun error => console_log [LErr error] ;; ret JUndefined).

(** *** Webhook management: direct calls of the transport, API v9.
    The handlers read [error.response.data] without a guard. *)

Definition createWebhook (this : t) (channelId webhookName webhookImage : string)
    : M value :=
  try_catch
    (response <- call W (mkRequest POST
         (api_v9 ++ "/channels/" ++ channelId ++ "/webhooks")
         (JsonBody (JObj [("name", JStr webhookName); ("avatar", JStr webhookImage)]))
         (auth_header this) None) ;;
     let webhook := data response in
     (if logging this then
        console_log [LStr "Webhook created successfully:"; LVal webhook]
      else ret tt) ;;
     wid <- lift (obind (get_prop webhook "id") (to_string W)) ;;
     wtoken <- lift (obind (get_prop webhook "token") (to_string W)) ;;
     console_log [LStr "Webhook URL:";
                  LStr ("https://discord.com/api/webhooks/" ++ wid
                        ++ "/" ++ wtoken)] ;;
     ret webhook)
    (fun error =>
       match error_response error with
       | Some r =>
           console_error [LStr "Error creating webhook:"; LVal (data r)] ;;
           ret JNull
       | None => throw (cannot_read JUndefined "data")
       end).

Definition deleteWebhook (this : t) (webhookId : string) : M value :=
  try_catch
    (call W (mkRequest DELETE (api_v9 ++ "/webhooks/" ++ webhookId) NoBody
             (auth_header this) None) ;;
     (if logging this then
        console_log [LStr ("Webhook deleted successfully: " ++ webhookId)]
      else ret tt) ;;
     ret JUndefined)
    (fun error =>
       match error_response error with
       | Some r =>
           console_error [LStr "Error deleting webhook:"; LVal (data r)] ;;
           ret JUndefined
       | None => throw (cannot_read JUndefined "data")
       end).

(** The image-download helper of the later revision of [Bot.ts]: no
    credentials, no handler; the result is
    [Buffer.from(response.data, 'binary')]. *)
Definition downloadImage (this : t) (url : string) : M value :=
  response <- call W (mkRequest GET url NoBody [] (Some "arraybuffer")) ;;
  lift (match buffer_from W (data response) with
        | inr buffer => Ok buffer
        | inl e => Throw e
        end).

(** *** The operations of the client as data *)

Inductive op : Type :=
| SendMessage (channelId : value) (content : string)
| GetUser (userId : string)
| GetGuild (guildId : string)
| CreateChannel (guildId name : string) (type : channel_type)
| KickMember (guildId userId : string)
| GetChannelMessages (channelId : string)
| AddReaction (channelId messageId emoji : string)
| RemoveReaction (channelId messageId emoji userId : string)
| GetMemberRoles (guildId userId : string)
| GetGuildChannels (guildId : string)
| EditMessage (channelId messageId content : string)
| GetMembers (guildId : string)
| CreateEmoji (guildId name image : string)
| GetEmojis (guildId : string)
| GetRoles (guildId : string)
| DeleteMessage (channelId messageId : string)
| EditRole (guildId roleId : string) (d : value)
| GetRoleUsers (guildId roleId : string)
| EditUsername (username : string)
| EditAvatar (avatar : string)
| EditStatus (status : bot_status)
| GetBotGateway
| Info
| GetGuilds
| LeaveGuild (guildId : string)
| GetConnections
| IsDmOpen (userId : string)
| Dm (userId message : string)
| OpenOrGetDm (userId : string)
| CreateWebhook (channelId webhookName webhookImage : string)
| DeleteWebhook (webhookId : string)
| DownloadImage (url : string).

Definition run (this : t) (o : op) : M value :=
  match o with
  | SendMessage c m => sendMessage this c m
  | GetUser u => getUser this u
  | GetGuild g => getGuild this g
  | CreateChannel g n k => createChannel this g n k
  | KickMember g u => kickMember this g u
  | GetChannelMessages c => getChannelMessages this c
  | AddReaction c m e => addReaction this c m e
  | RemoveReaction c m e u => removeReaction this c m e u
  | GetMemberRoles g u => getMemberRoles this g u
  | GetGuildChannels g => getGuildChannels this g
  | EditMessage c m x => editMessage this c m x
  | GetMembers g => getMembers this g
  | CreateEmoji g n i => createEmoji this g n i
  | GetEmojis g => getEmojis this g
  | GetRoles g => getRoles this g
  | DeleteMessage c m => deleteMessage this c m
  | EditRole g r d => editRole this g r d
  | GetRoleUsers g r => getRoleUsers this g r
  | EditUsername u => editUsername this u
  | EditAvatar a => editAvatar this a
  | EditStatus s => editStatus this s
  | GetBotGateway => getBotGateway this
  | Info => info this
  | GetGuilds => getGuilds this
  | LeaveGuild g => leaveGuild this g
  | GetConnections => getConnections this
  | IsDmOpen u => isDmOpen this u
  | Dm u m => dm this u m
  | OpenOrGetDm u => openOrGetDm this u
  | CreateWebhook c n i => createWebhook this c n i
  | DeleteWebhook w => deleteWebhook this w
  | DownloadImage u => downloadImage this u
  end.

End WithWorld.

(** The operations the specification sets apart from the dispatcher: the two
    DM-channel calls and the image download. *)
Definition dm_call_or_download (o : op) : bool :=
  match o with
  | IsDmOpen _ | OpenOrGetDm _ | DownloadImage _ => true
  | _ => false
  end.

(** The operations that do not simply forward to [makeRequest]. *)
Definition bypasses_dispatcher (o : op) : bool :=
  match o with
  | IsDmOpen _ | OpenOrGetDm _ | Dm _ _ | CreateWebhook _ _ _
  | DeleteWebhook _ | DownloadImage _ => true
  | _ => false
  end.

End Client.

(** * The webhook client, [src/Discord/Webhooks.ts] *)

(** [path.basename] for POSIX paths: the last non-empty segment. *)
Fixpoint basename_scan (cur last : string) (s : string) : string :=
  match s with
  | EmptyString => if String.eqb cur "" then last else cur
  | String c rest =>
      if Ascii.eqb c "/" then
        basename_scan "" (if String.eqb cur "" then last else cur) rest
      else basename_scan (cur ++ String c EmptyString) last rest
  end.

Definition basename (p : string) : string := basename_scan "" "" p.

(** [Buffer.toString('base64')] *)
Definition b64_alphabet : string :=
  "ABCDEFGHIJKLMNOPQRSTUVWXYZabcdefghijklmnopqrstuvwxyz0123456789+/".

Definition b64_char (n : N) : ascii :=
  match String.get (N.to_nat n) b64_alphabet with
  | Some c => c
  | None => "="%char
  end.

Fixpoint base64 (l : list byte) : string :=
  match l with
  | [] => ""
  | [a] =>
      let x := Byte.to_N a in
      String (b64_char (x / 4)) (String (b64_char ((x mod 4) * 16)) "==")
  | [a; b] =>
      let x := Byte.to_N a in
      let y := Byte.to_N b in
      String (b64_char (x / 4))
        (String (b64_char ((x mod 4) * 16 + y / 16))
          (String (b64_char ((y mod 16) * 4)) "="))
  | a :: b :: c :: rest =>
      let x := Byte.to_N a in
      let y := Byte.to_N b in
      let z := Byte.to_N c in
      String (b64_char (x / 4))
        (String (b64_char ((x mod 4) * 16 + y / 16))
          (String (b64_char ((y mod 16) * 4 + z / 64))
            (String (b64_char (z mod 64)) (base64 rest))))
  end%N.

Module WebhookUtils.

Record t : Type := mk { webhookUrl : string }.

Section WithWorld.
Variable W : World.

(** [constructor(hook)]; [None] is an omitted argument. *)
Definition constructor (hook : option string) : M t :=
  match hook with
  | Some h =>
      if negb (truthy (JStr h)) then throw (Error "No webhook URL provided")
      else ret (mk h)
  | None =>
      if negb (truthy JUndefined) then throw (Error "No webhook URL provided")
      else ret (mk "undefined")
  end.

Definition patch (this : t) (d : value) : request :=
  mkRequest PATCH (webhookUrl this) (JsonBody d) [] None.

Definition post (this : t) (d : value) : request :=
  mkRequest POST (webhookUrl this) (JsonBody d) [] None.

Definition status_line (response : AxiosResponse) : string :=
  chalk W blue (string_of_Z (status response)) ++ " - "
  ++ chalk W red (statusText response).

Definition setRateLimit (this : t) (rateLimitPerUser : Z) : M value :=
  try_catch
    (call W (patch this (JObj [("rate_limit_per_user", JNum rateLimitPerUser)])) ;;
     ret JUndefined)
    (fun error => console_log [LStr (error_message error)] ;; ret JUndefined).

Definition setWebhookOwner (this : t) (userID : string) : M value :=
  call W (patch this (JObj [("owner_id", JStr userID)])) ;;
  ret JUndefined.

Definition sendFile (this : t) (message filePath : string) : M value :=
  try_catch
    (fileData <- read_file W filePath ;;
     let fileName := basename filePath in
     fileSizeInBytes <- stat_size W filePath ;;
     console_log [LStr ("File size: " ++ chalk W red (string_of_Z fileSizeInBytes)
                        ++ " bytes (" ++ chalk W red (kb_to_string W fileSizeInBytes)
                        ++ " KB)")] ;;
     let formData := [FormFile "file" fileData fileName; FormText "content" message] in
     response <- (fun tr =>
       call W (mkRequest POST (webhookUrl this) (FormBody formData)
                 [("content-type",
                   "multipart/form-data; boundary=" ++ form_boundary W tr)]
                 None) tr) ;;
     console_log [LStr ("Webhook status: " ++ status_line response)] ;;
     ret JUndefined)
    (fun error =>
       console_error [LStr ("Error sending file to Discord: "
                            ++ chalk W red (error_message error))] ;;
       ret JUndefined).

Definition sendMessage (this : t) (message : string) : M value :=
  try_catch
    (response <- call W (post this (JObj [("content", JStr message)])) ;;
     console_log [LStr ("Message sent successfully. Status: "
                        ++ status_line response)] ;;
     ret JUndefined)
    (fun error =>
       console_error [LStr ("Error sending message. Status: "
                            ++ chalk W red (error_message error))] ;;
       ret JUndefined).

(** The image is read before the [try] block is entered. *)
Definition updateWebhook (this : t) (imagePath newName : string) : M value :=
  image <- read_file W imagePath ;;
  try_catch
    (call W (patch this
       (JObj [("avatar", JStr ("data:image/jpeg;base64," ++ base64 image))])) ;;
     call W (patch this (JObj [("name", JStr newName)])) ;;
     console_log [LStr "Webhook updated successfully!"] ;;
     ret JUndefined)
    (fun error =>
       console_error [LStr "Error updating webhook:"; LErr error] ;;
       ret JUndefined).

Definition deleteMessage (this : t) (messageId : string) : M value :=
  try_catch
    (response <- call W (mkRequest DELETE
         (webhookUrl this ++ "/messages/" ++ messageId) NoBody [] None) ;;
     console_log [LStr ("Message deleted: " ++ status_line response)] ;;
     ret JUndefined)
    (fun error =>
       console_error [LStr ("Error deleting message: "
                            ++ chalk W red (error_message error))] ;;
       ret JUndefined).

Definition sendSimpleEmbed (this : t) (content : string) : M value :=
  try_catch
    (let simpleEmbed := JObj [("description", JStr content)] in
     response <- call W (post this (JObj [("embeds", JArr [simpleEmbed])])) ;;
     console_log [LStr ("Simple embed sent: " ++ status_line response)] ;;
     ret JUndefined)
    (fun error =>
       console_error [LStr ("Error sending simple embed: "
                            ++ chalk W red (error_message error))] ;;
       ret JUndefined).

Definition deleteAllMessages (this : t) : M value :=
  try_catch
    (response <- call W (mkRequest DELETE (webhookUrl this) NoBody [] None) ;;
     console_log [LStr ("All messages deleted: " ++ status_line response)] ;;
     ret JUndefined)
    (fun error =>
       console_error [LStr ("Error deleting all messages: "
                            ++ chalk W red (error_message error))] ;;
       ret JUndefined).

Definition info (this : t) : M value :=
  try_catch
    (response <- call W (mkRequest GET (webhookUrl this) NoBody [] None) ;;
     console_log [LStr ("Webhook information fetched: " ++ status_line response)] ;;
     ret (data response))
    (fun error =>
       console_error [LStr ("Error fetching webhook information: "
                            ++ chalk W red (error_message error))] ;;
       throw error).

Definition sendMultipleEmbeds (this : t) (embedArray : list value) : M value :=
  try_catch
    (response <- call W (post this (JObj [("embeds", JArr embedArray)])) ;;
     console_log [LStr ("Multiple embeds sent in a single message: "
                        ++ status_line response)] ;;
     ret JUndefined)
    (fun error =>
       console_error [LStr ("Error sending multiple embeds: "
                            ++ chalk W red (error_message error))] ;;
       ret JUndefined).

(** *** The operations of the client as data *)

Inductive op : Type :=
| SetRateLimit (rateLimitPerUser : Z)
| SetWebhookOwner (userID : string)
| SendFile (message filePath : string)
| SendMessage (message : string)
| UpdateWebhook (imagePath newName : string)
| DeleteMessage (messageId : string)
| SendSimpleEmbed (content : string)
| DeleteAllMessages
| Info
| SendMultipleEmbeds (embedArray : list value).

Definition run (this : t) (o : op) : M value :=
  match o with
  | SetRateLimit n => setRateLimit this n
  | SetWebhookOwner u => setWebhookOwner this u
  | SendFile m f => sendFile this m f
  | SendMessage m => sendMessage this m
  | UpdateWebhook i n => updateWebhook this i n
  | DeleteMessage m => deleteMessage this m
  | SendSimpleEmbed c => sendSimpleEmbed this c
  | DeleteAllMessages => deleteAllMessages this
  | Info => info this
  | SendMultipleEmbeds l => sendMultipleEmbeds this l
  end.

End WithWorld.

Definition is_info (o : op) : bool :=
  match o with
  | Info => true
  | _ => false
  end.

Definition is_setWebhookOwner (o : op) : bool :=
  match o with
  | SetWebhookOwner _ => true
  | _ => false
  end.

End WebhookUtils.

(** * Concrete environments

    A transport that answers by a fixed function of the request, a file
    system given by a finite table, no colouring, a buffer made of any
    data; no number beyond the safe integers is printed in them. *)

Definition enoent (p : string) : error :=
  SystemError "ENOENT" ("ENOENT: no such file or directory, open '" ++ p ++ "'").

Fixpoint file_lookup (p : string) (files : list (string * list byte))
    : option (list byte) :=
  match files with
  | [] => None
  | (q, content) :: rest => if String.eqb p q then Some content else file_lookup p rest
  end.

Definition mock (answer : request -> error + AxiosResponse)
    (files : list (string * list byte)) : World :=
  mkWorld
    (fun _ r => answer r)
    (fun _ p => match file_lookup p files with
                | Some content => inr content
                | None => inl (enoent p)
                end)
    (fun _ p => match file_lookup p files with
                | Some content => inr (Z.of_nat (length content))
                | None => inl (enoent p)
                end)
    (fun _ s => s)
    (fun n => string_of_Z (n / 1024))
    (fun _ => "boundary")
    (fun n => string_of_Z n)
    (fun v => inr v).

Definition ok_200 (d : value) : error + AxiosResponse :=
  inr (mkResponse 200 "OK" d).

Definition http_error (code : Z) (text : string) (payload : value)
    : error + AxiosResponse :=
  inl (AxiosError ("Request failed with status code " ++ string_of_Z code)
         (Some (mkResponse code text payload))).

Definition network_error : error + AxiosResponse :=
  inl (AxiosError "Network Error" None).

(** A server that knows user 42 and nothing else. *)
Definition user_42 : value := JObj [("id", JStr "42"); ("username", JStr "x")].

Definition unknown_user : value :=
  JObj [("message", JStr "Unknown User"); ("code", JNum 10013)].

Definition users_server (r : request) : error + AxiosResponse :=
  if String.eqb (req_url r) "https://discord.com/api/v10/users/42"
  then ok_200 user_42
  else http_error 404 "Not Found" unknown_user.

(** A server that refuses everything with a 403. *)
Definition forbidden : value :=
  JObj [("message", JStr "Missing Permissions"); ("code", JNum 50013)].

Definition refusing_server (r : request) : error + AxiosResponse :=
  http_error 403 "Forbidden" forbidden.

(** * Vocabulary of the properties

    Requests, readings of a channel object and the claims of the
    specification in its own words, used by the statements below. *)

Definition getUser_42_request : request :=
  mkRequest GET "https://discord.com/api/v10/users/42" NoBody
    [("Authorization", "Bot T"); ("Content-Type", "application/json")] None.

(** The claim on credentials as the specification words it: both
    constructors reject an empty credential. *)
Definition empty_credential_rejected (W : World) (tr : trace) : Prop :=
  (exists e tr', WebhookUtils.constructor (Some "") tr = (Throw e, tr'))
  /\ (exists e tr', Client.constructor W "" (Some true) tr = (Throw e, tr')).

Definition owner_request (this : WebhookUtils.t) (userID : string) : request :=
  WebhookUtils.patch this (JObj [("owner_id", JStr userID)]).

(** The claim as the specification words it: no request is made and the
    file-system error is the failure of the operation. *)
Definition sendFile_fails_with (W : World) (this : WebhookUtils.t)
    (message filePath : string) (tr : trace) (e : error) : Prop :=
  requests_of (snd (WebhookUtils.sendFile W this message filePath tr)) = requests_of tr
  /\ fst (WebhookUtils.sendFile W this message filePath tr) = Throw e.

(** The claim as the specification words it, for one operation: unless it
    is one of the two DM-channel calls or the image download, it is a
    call of [makeRequest], and a failure of the transport is rethrown. *)
Definition dispatcher_policy (W : World) (this : Client.t) (o : Client.op) : Prop :=
  Client.dm_call_or_download o = false ->
  (exists endpoint m d,
      forall tr, Client.run W this o tr = Client.makeRequest W this endpoint m d tr)
  /\ (forall tr e,
        (forall tr' r, axios W tr' r = inl e) ->
        fst (Client.run W this o tr) = Throw e).

Definition refused : error :=
  AxiosError "Request failed with status code 403"
    (Some (mkResponse 403 "Forbidden" forbidden)).

(** Total readings of a channel object, for stating what the scan finds. *)
Definition has_type_1 (channel : value) : bool :=
  match get_prop channel "type" with
  | Ok ty => strict_eq_num ty 1
  | Throw _ => false
  end.

Definition recipients_of (channel : value) : list value :=
  match get_prop channel "recipients" with
  | Ok (JArr rs) => rs
  | _ => []
  end.

Definition id_of (v : value) : value :=
  match get_prop v "id" with
  | Ok i => i
  | Throw _ => JUndefined
  end.

(** [channel.recipients[0]], when both reads succeed and give a value that
    is neither [null] nor [undefined]; on a recipients array, its first
    element. *)
Definition first_recipient (channel : value) : option value :=
  match get_prop channel "recipients" with
  | Ok rs =>
      match get_index rs 0 with
      | Ok r => if nullish r then None else Some r
      | Throw _ => None
      end
  | Throw _ => None
  end.

(** What the code compares: the first recipient. *)
Definition first_recipient_is (userId : string) (channel : value) : bool :=
  match first_recipient channel with
  | Some r => strict_eq_str (id_of r) userId
  | None => false
  end.

Definition dm_match (userId : string) (channel : value) : bool :=
  has_type_1 channel && first_recipient_is userId channel.

(** What the specification says: [userId] among the recipients. *)
Definition among_recipients (userId : string) (channel : value) : bool :=
  existsb (fun r => strict_eq_str (id_of r) userId) (recipients_of channel).

Definition spec_dm_match (userId : string) (channel : value) : bool :=
  has_type_1 channel && among_recipients userId channel.

Definition spec_isDmOpen (userId : string) (chans : list value) : value :=
  match find (spec_dm_match userId) chans with
  | Some channel => id_of channel
  | None => JNull
  end.

(** Shape of the fetched list: its elements are not [null]; a channel of
    type 1 has at least one recipient (a first element of [recipients]
    that is not [null]), or exactly one (a one-to-one channel). *)
Definition has_recipient (channel : value) : bool :=
  match first_recipient channel with
  | Some _ => true
  | None => false
  end.

Definition sole_recipient (channel : value) : bool :=
  match recipients_of channel with
  | [r] => negb (nullish r)
  | _ => false
  end.

Definition channel_ok (channel : value) : bool :=
  negb (nullish channel) && implb (has_type_1 channel) (has_recipient channel).

Definition one_to_one_ok (channel : value) : bool :=
  negb (nullish channel) && implb (has_type_1 channel) (sole_recipient channel).

Definition not_null (channel : value) : bool := negb (nullish channel).

Definition type_1_has_recipient (channel : value) : bool :=
  implb (has_type_1 channel) (has_recipient channel).

(** The ids of the first recipients in a list of channels, and a user id
    that is none of them (it is longer than each). *)
Definition first_recipient_id (channel : value) : string :=
  match first_recipient channel with
  | Some r => match id_of r with JStr s => s | _ => "" end
  | None => ""
  end.

Fixpoint longer_than_all (ids : list string) : string :=
  match ids with
  | [] => "x"
  | s :: rest => s ++ longer_than_all rest
  end.

Definition unmatched_user (chans : list value) : string :=
  longer_than_all (map first_recipient_id chans).

(** A server whose DM channel list is [chans] and which creates the
    channel [created] on a POST. *)
Definition dm_server (chans : list value) (created : value) (r : request)
    : error + AxiosResponse :=
  match req_method r with
  | GET => ok_200 (JArr chans)
  | _ => ok_200 created
  end.

Definition channel (id : string) (type : Z) (recipients : list string) : value :=
  JObj [("id", JStr id); ("type", JNum type);
        ("recipients", JArr (map (fun u => JObj [("id", JStr u)]) recipients))].

(** The claim on [isDmOpen] as the specification words it. *)
Definition isDmOpen_as_stated (W : World) (this : Client.t) (userId : string)
    (tr : trace) (chans : list value) : Prop :=
  (exists resp, axios W tr (Client.dm_list_request this) = inr resp
                /\ data resp = JArr chans) ->
  fst (Client.isDmOpen W this userId tr) = Ok (spec_isDmOpen userId chans).

(** The claim on [openOrGetDm] as the specification words it: an id other
    than [null] from [isDmOpen] is returned and no creation is posted. *)
Definition openOrGetDm_as_stated (W : World) (this : Client.t)
    (userId : string) (tr : trace) : Prop :=
  forall existing tr1,
    Client.isDmOpen W this userId tr = (Ok existing, tr1) ->
    existing <> JNull ->
    fst (Client.openOrGetDm W this userId tr) = Ok existing
    /\ ~ In (Client.dm_create_request this userId)
            (requests_of (snd (Client.openOrGetDm W this userId tr))).

(** The send of [message] to the channel whose id prints as [channel]. *)
Definition send_request (this : Client.t) (channel message : string) : request :=
  mkRequest POST ("https://discord.com/api/v10/channels/" ++ channel ++ "/messages")
    (JsonBody (JObj [("content", JStr message)]))
    [("Authorization", "Bot " ++ Client.token this);
     ("Content-Type", "application/json")]
    None.



(** The error, if any, that the arguments of a forwarder raise while its
    path is built, before the dispatcher is entered: a channel id without
    a string conversion, an emoji with a lone surrogate. *)
Definition rejected_arguments (W : World) (o : Client.op) : option error :=
  match o with
  | Client.SendMessage channelId _ =>
      match to_string W channelId with
      | Throw e => Some e
      | Ok _ => None
      end
  | Client.AddReaction _ _ emoji | Client.RemoveReaction _ _ emoji _ =>
      match encodeURIComponent emoji with
      | Throw e => Some e
      | Ok _ => None
      end
  | _ => None
  end.


(** A channel object whose [id] is an object with a [toString] entry. *)
Definition unprintable_id : value := JObj [("toString", JNum 1)].


(** ** Events of a computation

    [emits P m]: whatever the environment answers, [m] only appends to the
    trace, and every event it appends satisfies [P]. *)
Definition emits {A : Type} (P : event -> Prop) (m : M A) : Prop :=
  forall tr, exists new, snd (m tr) = (tr ++ new)%list /\ Forall P new.

(** A request that carries the bot's credential to the Discord API. *)
Definition discord_api (url : string) : bool :=
  prefix "https://discord.com/api/v10/" url || prefix "https://discord.com/api/v9/" url.

Definition authorized (this : Client.t) (ev : event) : Prop :=
  match ev with
  | EvRequest r =>
      In ("Authorization", "Bot " ++ Client.token this) (req_headers r)
      /\ discord_api (req_url r) = true
  | _ => True
  end.

(** A request without any header, to a given URL, and nothing else. *)
Definition bare_request_to (url : string) (ev : event) : Prop :=
  match ev with
  | EvRequest r => req_url r = url /\ req_headers r = []
  | _ => False
  end.

(** A request under the webhook URL that carries no [Authorization]. *)
Definition webhook_scoped (this : WebhookUtils.t) (ev : event) : Prop :=
  match ev with
  | EvRequest r =>
      prefix (WebhookUtils.webhookUrl this) (req_url r) = true
      /\ (forall v, ~ In ("Authorization", v) (req_headers r))
  | _ => True
  end.

Definition is_download (o : Client.op) : bool :=
  match o with
  | Client.DownloadImage _ => true
  | _ => false
  end.

(** The operations whose handler prints the error it rethrows. *)
Definition rethrows_logged (o : Client.op) : bool :=
  match o with
  | Client.CreateWebhook _ _ _ | Client.DeleteWebhook _ | Client.DownloadImage _ => false
  | _ => true
  end.

(** The most requests one call of an operation issues. *)
Definition max_requests (o : Client.op) : nat :=
  match o with
  | Client.Dm _ _ => 3
  | Client.OpenOrGetDm _ => 2
  | _ => 1
  end.

Definition is_array (v : value) : bool :=
  match v with
  | JArr _ => true
  | _ => false
  end.

Definition avatar_request (this : WebhookUtils.t) (image : list byte) : request :=
  WebhookUtils.patch this
    (JObj [("avatar", JStr ("data:image/jpeg;base64," ++ base64 image))]).

Definition name_request (this : WebhookUtils.t) (newName : string) : request :=
  WebhookUtils.patch this (JObj [("name", JStr newName)]).

Definition file_request (W : World) (this : WebhookUtils.t)
    (message filePath : string) (fileData : list byte) (tr : trace) : request :=
  mkRequest POST (WebhookUtils.webhookUrl this)
    (FormBody [FormFile "file" fileData (basename filePath);
               FormText "content" message])
    [("content-type", "multipart/form-data; boundary=" ++ form_boundary W tr)]
    None.

(** ** The entry scripts, [src/index.js] and its later revisions *)

Module Script.
Section WithWorld.
Variable W : World.

Definition userId : string := "690666917328977941".

(** [.catch((error) => console.error('Error sending message:', error))] *)
Definition on_error (error : error) : M value :=
  console_error [LStr "Error sending message:"; LErr error] ;;
  ret JUndefined.

(** The later revisions: [new Client(botToken, true)], then
    [bot.dm(userId, 'test').catch(...)]. *)
Definition main (botToken : string) : M value :=
  bot <- Client.constructor W botToken (Some true) ;;
  try_catch (Client.dm W bot userId "test") on_error.

(** The same without the handler. *)
Definition main_unguarded (botToken : string) : M value :=
  bot <- Client.constructor W botToken (Some true) ;;
  Client.dm W bot userId "test".

(** [src/index.js]: [new Client({ token: botToken, logs: true })] passes
    one object where the constructor takes the token and the flag.  The
    client reads its token only inside the template literal
    [`Bot ${this.token}`], so it behaves as the client built from the
    string conversion of that object; the second argument is omitted.
    [botToken] is [process.env.PROPLAM_BOT], a string or [undefined]. *)
Definition index_main (botToken : value) : M value :=
  token <- lift (to_string W (JObj [("token", botToken); ("logs", JBool true)])) ;;
  bot <- Client.constructor W token None ;;
  try_catch (Client.dm W bot userId "test") on_error.

End WithWorld.
End Script.

(** * Properties *)

(** ** Sanity checks of the pure helpers *)

Example base64_Man : base64 [x4d; x61; x6e]%byte = "TWFu".
Proof. reflexivity. Qed.

Example base64_pad : base64 [x4d; x61]%byte = "TWE=" /\ base64 [x4d]%byte = "TQ==".
Proof. split; reflexivity. Qed.

Example basename_examples :
  basename "/tmp/a/cat.png" = "cat.png" /\ basename "a/b/" = "b"
  /\ basename "///" = "" /\ basename "plain" = "plain".
Proof. repeat split; reflexivity. Qed.

Example encodeURIComponent_examples :
  encodeURIComponent "a b/c" = Ok "a%20b%2Fc"
  /\ encodeURIComponent "ok_-.!~*'()" = Ok "ok_-.!~*'()"
  /\ encodeURIComponent
       (String (ascii_of_nat 240) (String (ascii_of_nat 159)
          (String (ascii_of_nat 145) (String (ascii_of_nat 141) ""))))
     = Ok "%F0%9F%91%8D"
  /\ encodeURIComponent
       (String (ascii_of_nat 237) (String (ascii_of_nat 160)
          (String (ascii_of_nat 189) "")))
     = Throw (URIError "URI malformed").
Proof. repeat split; reflexivity. Qed.

Example to_string_examples (W : World) :
  to_string W (JNum (-12)) = Ok "-12" /\ to_string W (JNum 0) = Ok "0"
  /\ to_string W (JArr [JNum 1; JNull; JArr [JStr "x"; JStr "y"]]) = Ok "1,,x,y"
  /\ to_string W JUndefined = Ok "undefined"
  /\ to_string W (JObj [("id", JNum 1)]) = Ok "[object Object]"
  /\ to_string W (JObj [("toString", JNum 1)]) = Throw not_primitive
  /\ to_string W (JArr [JObj [("toString", JNull)]]) = Throw not_primitive
  /\ to_string W (JNum (10 ^ 21)) = Ok (number_to_string W (10 ^ 21)).
Proof. repeat split; reflexivity. Qed.

Lemma requests_of_app (a b : trace) :
  requests_of (a ++ b)%list = (requests_of a ++ requests_of b)%list.
Proof.
  induction a as [|ev a IH]; simpl; [reflexivity|].
  destruct ev; simpl; rewrite IH; reflexivity.
Qed.

Ltac run_monad :=
  unfold bind, try_catch, ret, throw, lift, detach, console_log,
    console_error, emit, call, read_file, stat_size.

(** ** The dispatcher *)

Lemma makeRequest_fulfilled (W : World) (this : Client.t) endpoint m d tr resp :
  axios W tr (Client.dispatcher_request this endpoint m d) = inr resp ->
  Client.makeRequest W this endpoint m d tr =
    (Ok (data resp),
     (tr ++ EvRequest (Client.dispatcher_request this endpoint m d)
         :: (if Client.logging this
             then [EvConsoleLog
                     [LStr ("response sent to endpoint: " ++ chalk W green endpoint)]]
             else []))%list).
Proof.
  intros H. unfold Client.makeRequest. run_monad. rewrite H.
  destruct (Client.logging this); simpl.
  - rewrite <- app_assoc. reflexivity.
  - reflexivity.
Qed.

Lemma makeRequest_rejected (W : World) (this : Client.t) endpoint m d tr e :
  axios W tr (Client.dispatcher_request this endpoint m d) = inl e ->
  Client.makeRequest W this endpoint m d tr =
    (Throw e,
     (tr ++ [EvRequest (Client.dispatcher_request this endpoint m d);
             EvConsoleError [LStr "Discord API Error:"; payload_or_message e]])%list).
Proof.
  intros H. unfold Client.makeRequest. run_monad. rewrite H.
  rewrite <- app_assoc. reflexivity.
Qed.

(** C1.  A client built with token ["T"] (whatever the [logs] argument):
    [getUser("42")] adds to the trace exactly one request, a GET of
    [/users/42] under the v10 base URL with [Authorization: Bot T].  If the
    transport fulfils it, the data of the response is the result; if the
    transport rejects it with [e], the payload of [e] (or its message when
    there is no payload) is written to [console.error] and the same [e] is
    thrown to the caller. *)
Theorem getUser_end_to_end (W : World) (logs : option bool) (tr0 tr : trace) :
  exists this tr1,
    Client.constructor W "T" logs tr0 = (Ok this, tr1)
    /\ match axios W tr getUser_42_request with
       | inr resp =>
           Client.getUser W this "42" tr =
             (Ok (data resp),
              (tr ++ [EvRequest getUser_42_request;
                      EvConsoleLog [LStr ("response sent to endpoint: "
                                          ++ chalk W green "/users/42")]])%list)
       | inl e =>
           Client.getUser W this "42" tr =
             (Throw e,
              (tr ++ [EvRequest getUser_42_request;
                      EvConsoleError [LStr "Discord API Error:";
                                      match error_response e with
                                      | Some r =>
                                          if truthy (data r) then LVal (data r)
                                          else LStr (error_message e)
                                      | None => LStr (error_message e)
                                      end]])%list)
       end.
Proof.
  assert (Hc : exists tr1,
             Client.constructor W "T" logs tr0 = (Ok (Client.mk "T" true), tr1)).
  { unfold Client.constructor. destruct logs as [[|]|]; simpl; run_monad;
      eexists; reflexivity. }
  destruct Hc as [tr1 Hc]. exists (Client.mk "T" true), tr1.
  split; [exact Hc|].
  unfold Client.getUser.
  destruct (axios W tr getUser_42_request) as [e|resp] eqn:Hax.
  - rewrite (makeRequest_rejected W _ _ _ _ _ e); [reflexivity | exact Hax].
  - rewrite (makeRequest_fulfilled W _ _ _ _ _ resp); [reflexivity | exact Hax].
Qed.

(** The scenario of the specification, run on the mocked server. *)
Example getUser_mocked_200 :
  Client.getUser (mock users_server []) (Client.mk "T" true) "42" [] =
    (Ok user_42,
     [EvRequest getUser_42_request;
      EvConsoleLog [LStr "response sent to endpoint: /users/42"]]).
Proof. reflexivity. Qed.

Example getUser_mocked_404 :
  exists e,
    e = AxiosError "Request failed with status code 404"
          (Some (mkResponse 404 "Not Found" unknown_user))
    /\ fst (Client.getUser (mock users_server []) (Client.mk "T" true) "43" []) = Throw e
    /\ In (EvConsoleError [LStr "Discord API Error:"; LVal unknown_user])
         (snd (Client.getUser (mock users_server []) (Client.mk "T" true) "43" [])).
Proof.
  eexists. split; [reflexivity|]. split.
  - reflexivity.
  - simpl. right. left. reflexivity.
Qed.

(** ** Construction *)

(** C9.  The constructor ends with the logging flag set whether it is
    given [true] or [false]; given [false] it also prints the banner.  An
    omitted argument behaves as [false]. *)
Theorem constructor_logs_false_enables_logging (W : World) (tok : string)
    (tr : trace) :
  (forall b : bool,
     Client.constructor W tok (Some b) tr =
       (Ok (Client.mk tok true),
        if b then tr else (tr ++ [EvConsoleLog [LStr (Client.logs_banner W)]])%list))
  /\ Client.constructor W tok None tr = Client.constructor W tok (Some false) tr.
Proof.
  split.
  - intros [|]; reflexivity.
  - reflexivity.
Qed.

(** The bot client accepts the empty token: its constructor has no check
    (the later revision of [Bot.ts] itself ends with [new Client('', true)]). *)
Lemma empty_token_accepted :
  Client.constructor (mock users_server []) "" (Some true) [] =
    (Ok (Client.mk "" true), [])
  /\ ~ empty_credential_rejected (mock users_server []) [].
Proof.
  split; [reflexivity|].
  intros [_ [e [tr' H]]]. discriminate H.
Qed.

(** C6, amended.  The webhook client rejects an omitted or empty URL at
    construction with [Error('No webhook URL provided')] before anything
    else happens, and accepts every other URL; the bot client's
    constructor inspects no credential and always returns an instance
    holding the token it was given. *)
Theorem constructor_credential_check (W : World) (tr : trace) :
  WebhookUtils.constructor None tr = (Throw (Error "No webhook URL provided"), tr)
  /\ WebhookUtils.constructor (Some "") tr
       = (Throw (Error "No webhook URL provided"), tr)
  /\ (forall c rest,
        WebhookUtils.constructor (Some (String c rest)) tr
          = (Ok (WebhookUtils.mk (String c rest)), tr))
  /\ (forall tok logs, exists tr',
        Client.constructor W tok logs tr = (Ok (Client.mk tok true), tr')).
Proof.
  repeat split.
  intros tok logs. unfold Client.constructor.
  destruct logs as [[|]|]; simpl; run_monad; eexists; reflexivity.
Qed.

(** ** The webhook client's failure policy *)

(** C5, the operation that breaks the policy.  [setWebhookOwner] has no
    handler: when the transport rejects its PATCH with [e], nothing is
    printed and [e] reaches the caller. *)
Theorem setWebhookOwner_propagates (W : World) (this : WebhookUtils.t)
    (userID : string) (tr : trace) (e : error) :
  axios W tr (owner_request this userID) = inl e ->
  WebhookUtils.setWebhookOwner W this userID tr =
    (Throw e, (tr ++ [EvRequest (owner_request this userID)])%list).
Proof.
  intros H. unfold WebhookUtils.setWebhookOwner. run_monad.
  fold (owner_request this userID). rewrite H. reflexivity.
Qed.

Lemma setWebhookOwner_propagates_witness :
  axios (mock refusing_server [])
     [] (owner_request (WebhookUtils.mk "https://discord.com/api/webhooks/1/t") "7")
   = refusing_server (owner_request (WebhookUtils.mk "https://discord.com/api/webhooks/1/t") "7")
  /\ WebhookUtils.setWebhookOwner (mock refusing_server [])
       (WebhookUtils.mk "https://discord.com/api/webhooks/1/t") "7" [] =
     (Throw (AxiosError "Request failed with status code 403"
               (Some (mkResponse 403 "Forbidden" forbidden))),
      [EvRequest (owner_request (WebhookUtils.mk "https://discord.com/api/webhooks/1/t") "7")]).
Proof.
  split; [reflexivity|].
  apply (setWebhookOwner_propagates (mock refusing_server [])
           (WebhookUtils.mk "https://discord.com/api/webhooks/1/t") "7" []).
  reflexivity.
Defined.

(** X4.  Every other operation than [info] and [setWebhookOwner] keeps the
    policy: whatever the transport and the file system answer, it returns
    normally, except that [updateWebhook] lets the error of its file
    read through (the read is outside its [try]). *)
Lemma webhook_operations_swallow (W : World) (this : WebhookUtils.t)
    (o : WebhookUtils.op) (tr : trace) :
  WebhookUtils.is_info o = false ->
  WebhookUtils.is_setWebhookOwner o = false ->
  match o with
  | WebhookUtils.UpdateWebhook imagePath _ =>
      match readFileSync W tr imagePath with
      | inl e => fst (WebhookUtils.run W this o tr) = Throw e
      | inr _ => fst (WebhookUtils.run W this o tr) = Ok JUndefined
      end
  | _ => fst (WebhookUtils.run W this o tr) = Ok JUndefined
  end.
Proof.
  intros Hi Ho.
  destruct o; try discriminate; simpl;
    unfold WebhookUtils.setRateLimit, WebhookUtils.sendFile,
      WebhookUtils.sendMessage, WebhookUtils.updateWebhook,
      WebhookUtils.deleteMessage, WebhookUtils.sendSimpleEmbed,
      WebhookUtils.deleteAllMessages, WebhookUtils.sendMultipleEmbeds;
    run_monad;
    repeat match goal with
      | |- context [match ?x with inl _ => _ | inr _ => _ end] => destruct x
      end; reflexivity.
Qed.

(** X5.  [info] prints and rethrows: when the transport rejects its GET
    with [e], the message of [e] is printed by [console.error] and the
    same [e] is thrown to the caller. *)
Lemma webhook_info_rethrows (W : World) (this : WebhookUtils.t) (tr : trace)
    (e : error) :
  axios W tr (mkRequest GET (WebhookUtils.webhookUrl this) NoBody [] None) = inl e ->
  WebhookUtils.info W this tr =
    (Throw e,
     (tr ++ [EvRequest (mkRequest GET (WebhookUtils.webhookUrl this) NoBody [] None);
             EvConsoleError [LStr ("Error fetching webhook information: "
                                   ++ chalk W red (error_message e))]])%list).
Proof.
  intros H. unfold WebhookUtils.info. run_monad. rewrite H.
  rewrite <- app_assoc. reflexivity.
Qed.

(** ** [sendFile] on a path that does not exist *)

(** On an empty file system the read fails with ENOENT, yet the call
    returns normally: the error is caught by the handler of [sendFile]. *)
Lemma sendFile_missing_returns_normally :
  readFileSync (mock refusing_server []) [] "nope.png" = inl (enoent "nope.png")
  /\ fst (WebhookUtils.sendFile (mock refusing_server [])
            (WebhookUtils.mk "https://discord.com/api/webhooks/1/t")
            "hello" "nope.png" []) = Ok JUndefined
  /\ ~ sendFile_fails_with (mock refusing_server [])
         (WebhookUtils.mk "https://discord.com/api/webhooks/1/t")
         "hello" "nope.png" [] (enoent "nope.png").
Proof.
  split; [reflexivity|]. split; [reflexivity|].
  intros [_ H]. discriminate H.
Qed.

(** C8, amended.  When the read of the file fails with [e], [sendFile]
    stops there: the read is the only access to the outside, no request
    is issued, [e]'s message is printed by [console.error], and the call
    returns normally. *)
Theorem sendFile_missing_file (W : World) (this : WebhookUtils.t)
    (message filePath : string) (tr : trace) (e : error) :
  readFileSync W tr filePath = inl e ->
  WebhookUtils.sendFile W this message filePath tr =
    (Ok JUndefined,
     (tr ++ [EvReadFile filePath;
             EvConsoleError [LStr ("Error sending file to Discord: "
                                   ++ chalk W red (error_message e))]])%list)
  /\ requests_of (snd (WebhookUtils.sendFile W this message filePath tr))
     = requests_of tr.
Proof.
  intros H.
  assert (E : WebhookUtils.sendFile W this message filePath tr =
    (Ok JUndefined,
     (tr ++ [EvReadFile filePath;
             EvConsoleError [LStr ("Error sending file to Discord: "
                                   ++ chalk W red (error_message e))]])%list)).
  { unfold WebhookUtils.sendFile. run_monad. rewrite H.
    rewrite <- app_assoc. reflexivity. }
  split; [exact E|].
  rewrite E. simpl. rewrite requests_of_app. simpl. apply app_nil_r.
Qed.

Lemma sendFile_missing_file_witness :
  readFileSync (mock refusing_server []) [] "nope.png" = inl (enoent "nope.png")
  /\ WebhookUtils.sendFile (mock refusing_server [])
       (WebhookUtils.mk "https://discord.com/api/webhooks/1/t") "hello" "nope.png" [] =
     (Ok JUndefined,
      [EvReadFile "nope.png";
       EvConsoleError
         [LStr "Error sending file to Discord: ENOENT: no such file or directory, open 'nope.png'"]]).
Proof.
  split; [reflexivity|].
  apply (sendFile_missing_file (mock refusing_server [])
           (WebhookUtils.mk "https://discord.com/api/webhooks/1/t")
           "hello" "nope.png" [] (enoent "nope.png")).
  reflexivity.
Defined.

(** ** Which operations go through the dispatcher *)

(** [createWebhook] is neither a DM-channel call nor the download, calls
    the transport itself, and answers a refusal with [null]. *)
Lemma createWebhook_returns_null :
  Client.run (mock refusing_server []) (Client.mk "T" true)
    (Client.CreateWebhook "100" "hook" "img") [] =
    (Ok JNull,
     [EvRequest (mkRequest POST "https://discord.com/api/v9/channels/100/webhooks"
                   (JsonBody (JObj [("name", JStr "hook"); ("avatar", JStr "img")]))
                   [("Authorization", "Bot T")] None);
      EvConsoleError [LStr "Error creating webhook:"; LVal forbidden]])
  /\ ~ dispatcher_policy (mock refusing_server []) (Client.mk "T" true)
         (Client.CreateWebhook "100" "hook" "img").
Proof.
  split; [reflexivity|].
  intros H. destruct (H eq_refl) as [_ Hthrow].
  specialize (Hthrow [] refused (fun _ _ => eq_refl)).
  discriminate Hthrow.
Qed.

(** C4, amended.  Every operation other than the DM helpers ([isDmOpen],
    [openOrGetDm], [dm]), the webhook calls ([createWebhook],
    [deleteWebhook]) and the image download issues its request through
    [makeRequest]: once its path is built the call is one call of the
    dispatcher, and when the transport rejects the request with [e], the
    operation prints the error by [console.error] and throws the same
    [e].  Building the path can fail first, for [sendMessage] on a channel
    id without string conversion and for [addReaction] / [removeReaction]
    on an emoji with a lone surrogate: the call then throws that error
    with no request and nothing printed. *)
Theorem forwarders_use_dispatcher (W : World) (this : Client.t) (o : Client.op) :
  Client.bypasses_dispatcher o = false ->
  match rejected_arguments W o with
  | Some e => forall tr, Client.run W this o tr = (Throw e, tr)
  | None =>
      exists endpoint m d,
        (forall tr, Client.run W this o tr = Client.makeRequest W this endpoint m d tr)
        /\ (forall tr e,
              axios W tr (Client.dispatcher_request this endpoint m d) = inl e ->
              Client.run W this o tr =
                (Throw e,
                 (tr ++ [EvRequest (Client.dispatcher_request this endpoint m d);
                         EvConsoleError [LStr "Discord API Error:";
                                         payload_or_message e]])%list))
  end.
Proof.
  intros H.
  destruct o; try discriminate H; simpl;
    unfold Client.sendMessage, Client.addReaction, Client.removeReaction;
    try (destruct (to_string W channelId) as [channel|e0]);
    try (destruct (encodeURIComponent emoji) as [encoded|e0]);
    first
      [ intros tr; reflexivity
      | eexists _, _, _; split;
        [ intros tr; reflexivity
        | intros tr e Hax; apply makeRequest_rejected; exact Hax ] ].
Qed.

Lemma forwarders_use_dispatcher_witness :
  Client.bypasses_dispatcher (Client.KickMember "9" "42") = false
  /\ exists endpoint m d,
       (forall tr,
          Client.run (mock refusing_server []) (Client.mk "T" true)
            (Client.KickMember "9" "42") tr =
          Client.makeRequest (mock refusing_server []) (Client.mk "T" true)
            endpoint m d tr)
       /\ (forall tr e,
             axios (mock refusing_server []) tr
               (Client.dispatcher_request (Client.mk "T" true) endpoint m d) = inl e ->
             Client.run (mock refusing_server []) (Client.mk "T" true)
               (Client.KickMember "9" "42") tr =
               (Throw e,
                (tr ++ [EvRequest (Client.dispatcher_request (Client.mk "T" true)
                                     endpoint m d);
                        EvConsoleError [LStr "Discord API Error:";
                                        payload_or_message e]])%list)).
Proof.
  split; [reflexivity|].
  apply (forwarders_use_dispatcher (mock refusing_server []) (Client.mk "T" true)
           (Client.KickMember "9" "42")).
  reflexivity.
Defined.

(** The silent failures, on the mocked server: nothing is requested and
    nothing is printed. *)
Example forwarders_reject_arguments :
  Client.run (mock refusing_server []) (Client.mk "T" true)
    (Client.SendMessage unprintable_id "hi") [] = (Throw not_primitive, [])
  /\ Client.run (mock refusing_server []) (Client.mk "T" true)
       (Client.AddReaction "1" "2"
          (String (ascii_of_nat 237) (String (ascii_of_nat 160)
             (String (ascii_of_nat 189) "")))) []
     = (Throw (URIError "URI malformed"), []).
Proof. split; reflexivity. Qed.

(** The two webhook calls of the bot client swallow an HTTP error that
    carries a response, and fail with a [TypeError] of their own handler
    when the error carries none. *)
Lemma createWebhook_on_failure (W : World) (this : Client.t)
    (channelId webhookName webhookImage : string) (tr : trace) (e : error) :
  let r := mkRequest POST (Client.api_v9 ++ "/channels/" ++ channelId ++ "/webhooks")
             (JsonBody (JObj [("name", JStr webhookName); ("avatar", JStr webhookImage)]))
             (Client.auth_header this) None in
  axios W tr r = inl e ->
  Client.createWebhook W this channelId webhookName webhookImage tr =
    match error_response e with
    | Some resp =>
        (Ok JNull,
         (tr ++ [EvRequest r;
                 EvConsoleError [LStr "Error creating webhook:"; LVal (data resp)]])%list)
    | None => (Throw (cannot_read JUndefined "data"), (tr ++ [EvRequest r])%list)
    end.
Proof.
  intros r H. unfold Client.createWebhook. run_monad. fold r. rewrite H.
  destruct (error_response e); [rewrite <- app_assoc|]; reflexivity.
Qed.

Lemma deleteWebhook_on_failure (W : World) (this : Client.t)
    (webhookId : string) (tr : trace) (e : error) :
  let r := mkRequest DELETE (Client.api_v9 ++ "/webhooks/" ++ webhookId) NoBody
             (Client.auth_header this) None in
  axios W tr r = inl e ->
  Client.deleteWebhook W this webhookId tr =
    match error_response e with
    | Some resp =>
        (Ok JUndefined,
         (tr ++ [EvRequest r;
                 EvConsoleError [LStr "Error deleting webhook:"; LVal (data resp)]])%list)
    | None => (Throw (cannot_read JUndefined "data"), (tr ++ [EvRequest r])%list)
    end.
Proof.
  intros r H. unfold Client.deleteWebhook. run_monad. fold r. rewrite H.
  destruct (error_response e); [rewrite <- app_assoc|]; reflexivity.
Qed.

(** ** The DM helpers *)

Lemma get_prop_id_of (v : value) :
  nullish v = false -> get_prop v "id" = Ok (id_of v).
Proof.
  intros H. unfold id_of. destruct v; try discriminate H; simpl;
    try reflexivity.
  destruct (lookup "id" fields); reflexivity.
Qed.

Lemma get_prop_not_null (v : value) (k : string) :
  nullish v = false -> exists x, get_prop v k = Ok x.
Proof.
  intros H. destruct v; try discriminate H; simpl; try (eexists; reflexivity).
  destruct (lookup k fields); eexists; reflexivity.
Qed.

Lemma has_type_1_object (channel : value) :
  has_type_1 channel = true -> exists fields, channel = JObj fields.
Proof.
  unfold has_type_1. destruct channel; simpl; try discriminate.
  intros _. eexists; reflexivity.
Qed.

(** On a well-shaped channel the predicate of the scan does not throw and
    decides [dm_match]. *)
Lemma dm_predicate_total (userId : string) (channel : value) :
  channel_ok channel = true ->
  Client.dm_predicate userId channel = Ok (dm_match userId channel).
Proof.
  unfold channel_ok, dm_match, has_type_1, first_recipient_is, has_recipient,
    first_recipient, Client.dm_predicate.
  intros H. apply andb_prop in H. destruct H as [Hn H].
  apply negb_true_iff in Hn.
  destruct (get_prop_not_null channel "type" Hn) as [ty Hty].
  rewrite Hty in *. simpl.
  destruct (strict_eq_num ty 1); simpl in *; [|reflexivity].
  destruct (get_prop channel "recipients") as [rs|e]; simpl in *;
    [|discriminate H].
  destruct (get_index rs 0) as [r|e]; simpl in *; [|discriminate H].
  destruct (nullish r) eqn:Hr; [discriminate H|].
  rewrite (get_prop_id_of r Hr). reflexivity.
Qed.

Lemma get_prop_error (v : value) (k : string) (e : error) :
  get_prop v k = Throw e -> exists msg, e = TypeError msg.
Proof.
  destruct v; simpl; try discriminate;
    try (intros H; injection H as <-; eexists; reflexivity).
  destruct (lookup k fields); discriminate.
Qed.

Lemma get_index_error (v : value) (i : nat) (e : error) :
  get_index v i = Throw e -> exists msg, e = TypeError msg.
Proof.
  destruct v; simpl; try discriminate;
    try (intros H; injection H as <-; eexists; reflexivity).
  - destruct (get i s); discriminate.
  - destruct (lookup (string_of_Z (Z.of_nat i)) fields); discriminate.
Qed.

(** On a channel of type 1 without a first recipient it throws. *)
Lemma dm_predicate_throws (userId : string) (channel : value) :
  has_type_1 channel = true ->
  has_recipient channel = false ->
  exists msg, Client.dm_predicate userId channel = Throw (TypeError msg).
Proof.
  unfold has_type_1, has_recipient, first_recipient, Client.dm_predicate.
  intros Ht Hr.
  destruct (get_prop channel "type") as [ty|e]; [|discriminate Ht].
  cbn [obind]. rewrite Ht.
  destruct (get_prop channel "recipients") as [rs|e] eqn:Hrs; cbn [obind].
  - destruct (get_index rs 0) as [r|e] eqn:Hi; cbn [obind].
    + destruct (nullish r) eqn:Hn; [|discriminate Hr].
      destruct r; try discriminate Hn; eexists; reflexivity.
    + destruct (get_index_error _ _ _ Hi) as [msg ->]. eexists; reflexivity.
  - destruct (get_prop_error _ _ _ Hrs) as [msg ->]. eexists; reflexivity.
Qed.

Lemma js_find_total (userId : string) (chans : list value) :
  forallb channel_ok chans = true ->
  js_find (Client.dm_predicate userId) chans =
    Ok (match find (dm_match userId) chans with
        | Some c => c
        | None => JUndefined
        end).
Proof.
  induction chans as [|c chans IH]; simpl; [reflexivity|].
  intros H. apply andb_prop in H. destruct H as [Hc Hrest].
  rewrite (dm_predicate_total userId c Hc).
  destruct (dm_match userId c); [reflexivity | apply IH; exact Hrest].
Qed.

(** Well-shaped channels that do not match are passed over. *)
Lemma js_find_skip (userId : string) (pre rest : list value) :
  forallb channel_ok pre = true ->
  find (dm_match userId) pre = None ->
  js_find (Client.dm_predicate userId) (pre ++ rest) =
    js_find (Client.dm_predicate userId) rest.
Proof.
  induction pre as [|p pre IH]; simpl; [reflexivity|].
  intros Hok Hnone. apply andb_prop in Hok. destruct Hok as [Hp Hok].
  rewrite (dm_predicate_total userId p Hp).
  destruct (dm_match userId p); [discriminate Hnone|].
  apply IH; assumption.
Qed.

Lemma find_dm_match_object (userId : string) (chans : list value) (c : value) :
  find (dm_match userId) chans = Some c -> exists fields, c = JObj fields.
Proof.
  intros H. apply find_some in H. destruct H as [_ H].
  unfold dm_match in H. apply andb_prop in H. destruct H as [H _].
  apply has_type_1_object. exact H.
Qed.

(** What [isDmOpen] returns on a well-shaped list. *)
Lemma isDmOpen_scan (W : World) (this : Client.t) (userId : string) (tr : trace)
    (resp : AxiosResponse) (chans : list value) :
  axios W tr (Client.dm_list_request this) = inr resp ->
  data resp = JArr chans ->
  forallb channel_ok chans = true ->
  Client.isDmOpen W this userId tr =
    (Ok (match find (dm_match userId) chans with
         | Some c => id_of c
         | None => JNull
         end),
     (tr ++ [EvRequest (Client.dm_list_request this)])%list).
Proof.
  intros Hax Hd Hok. unfold Client.isDmOpen. run_monad.
  rewrite Hax, Hd. simpl. rewrite (js_find_total userId chans Hok).
  destruct (find (dm_match userId) chans) as [c|] eqn:Hf; simpl.
  - destruct (find_dm_match_object _ _ _ Hf) as [fields ->]. simpl.
    unfold id_of. simpl. destruct (lookup "id" fields); reflexivity.
  - reflexivity.
Qed.

(** What it does when the scan throws. *)
Lemma isDmOpen_scan_throws (W : World) (this : Client.t) (userId : string)
    (tr : trace) (resp : AxiosResponse) (chans : list value) (msg : string) :
  axios W tr (Client.dm_list_request this) = inr resp ->
  data resp = JArr chans ->
  js_find (Client.dm_predicate userId) chans = Throw (TypeError msg) ->
  Client.isDmOpen W this userId tr =
    (Throw (TypeError msg),
     (tr ++ [EvRequest (Client.dm_list_request this);
             EvConsoleError [LStr "Error checking DM:"; LStr msg]])%list).
Proof.
  intros Hax Hd Hf. unfold Client.isDmOpen. run_monad.
  rewrite Hax, Hd. simpl. rewrite Hf. rewrite <- app_assoc. reflexivity.
Qed.

(** When every channel of type 1 has exactly one recipient, matching the
    first recipient and matching any recipient are the same. *)
Lemma sole_recipient_first (channel : value) :
  sole_recipient channel = true ->
  exists r, recipients_of channel = [r] /\ first_recipient channel = Some r.
Proof.
  unfold sole_recipient, recipients_of, first_recipient.
  destruct (get_prop channel "recipients") as [rs|e]; [|discriminate].
  destruct rs; try discriminate.
  destruct items as [|r [|r' items]]; try discriminate.
  simpl. intros H. apply negb_true_iff in H. rewrite H.
  exists r. split; reflexivity.
Qed.

Lemma sole_recipient_match (userId : string) (channel : value) :
  one_to_one_ok channel = true ->
  dm_match userId channel = spec_dm_match userId channel.
Proof.
  unfold one_to_one_ok, dm_match, spec_dm_match. intros H.
  apply andb_prop in H. destruct H as [_ H].
  destruct (has_type_1 channel); simpl in *; [|reflexivity].
  destruct (sole_recipient_first channel H) as [r [Hrs Hfirst]].
  unfold first_recipient_is, among_recipients. rewrite Hrs, Hfirst.
  simpl. rewrite orb_false_r. reflexivity.
Qed.

Lemma sole_recipient_find (userId : string) (chans : list value) :
  forallb one_to_one_ok chans = true ->
  find (dm_match userId) chans = find (spec_dm_match userId) chans.
Proof.
  induction chans as [|c chans IH]; simpl; [reflexivity|].
  intros H. apply andb_prop in H. destruct H as [Hc Hrest].
  rewrite (sole_recipient_match userId c Hc).
  destruct (spec_dm_match userId c); [reflexivity | apply IH; exact Hrest].
Qed.

Lemma one_to_one_channel_ok (channel : value) :
  one_to_one_ok channel = true -> channel_ok channel = true.
Proof.
  unfold one_to_one_ok, channel_ok.
  intros H. apply andb_prop in H. destruct H as [Hn H]. rewrite Hn. simpl.
  destruct (has_type_1 channel); simpl in *; [|reflexivity].
  destruct (sole_recipient_first channel H) as [r [_ Hfirst]].
  unfold has_recipient. rewrite Hfirst. reflexivity.
Qed.

Lemma one_to_one_list_ok (chans : list value) :
  forallb one_to_one_ok chans = true -> forallb channel_ok chans = true.
Proof.
  induction chans as [|c chans IH]; simpl; [reflexivity|].
  intros H. apply andb_prop in H. destruct H as [Hc Hrest].
  rewrite (one_to_one_channel_ok c Hc). simpl. apply IH. exact Hrest.
Qed.

(** A user id that matches no channel of a list. *)
Lemma length_append (s t : string) :
  String.length (s ++ t) = String.length s + String.length t.
Proof. induction s as [|c s IH]; simpl; [reflexivity | rewrite IH; reflexivity]. Qed.

Lemma longer_than_all_longer (ids : list string) (s : string) :
  In s ids -> String.length s < String.length (longer_than_all ids).
Proof.
  induction ids as [|t ids IH]; simpl; [intros []|].
  intros [<- | H]; rewrite length_append.
  - assert (0 < String.length (longer_than_all ids)).
    { clear. induction ids as [|u ids IH]; simpl; [lia|].
      rewrite length_append. lia. }
    lia.
  - specialize (IH H). lia.
Qed.

Lemma unmatched_user_no_match (pre : list value) :
  find (dm_match (unmatched_user pre)) pre = None.
Proof.
  unfold unmatched_user.
  assert (G : forall u c, In c pre -> dm_match u c = true ->
                          In u (map first_recipient_id pre)).
  { intros u c Hin Hm. apply in_map_iff. exists c. split; [|exact Hin].
    unfold dm_match, first_recipient_is, first_recipient_id in *.
    apply andb_prop in Hm. destruct Hm as [_ Hm].
    destruct (first_recipient c) as [r|]; [|discriminate Hm].
    destruct (id_of r); simpl in Hm; try discriminate Hm.
    apply String.eqb_eq in Hm. simpl. exact Hm. }
  destruct (find (dm_match (longer_than_all (map first_recipient_id pre))) pre)
    as [c|] eqn:Hf; [|reflexivity].
  apply find_some in Hf. destruct Hf as [Hin Hm].
  pose proof (longer_than_all_longer _ _ (G _ _ Hin Hm)) as Hlt. lia.
Qed.

Lemma forallb_first_failure {A} (f : A -> bool) (l : list A) :
  forallb f l = false ->
  exists pre c post, l = (pre ++ c :: post)%list
                     /\ forallb f pre = true /\ f c = false.
Proof.
  induction l as [|x l IH]; simpl; [discriminate|].
  destruct (f x) eqn:Hx; simpl.
  - intros H. destruct (IH H) as [pre [c [post [-> [Hpre Hc]]]]].
    exists (x :: pre), c, post. simpl. rewrite Hx, Hpre. repeat split. exact Hc.
  - intros _. exists [], x, l. repeat split. exact Hx.
Qed.

Lemma channel_ok_split (chans : list value) :
  forallb channel_ok chans =
    forallb not_null chans && forallb type_1_has_recipient chans.
Proof.
  induction chans as [|c chans IH]; simpl; [reflexivity|].
  rewrite IH. unfold channel_ok, not_null, type_1_has_recipient.
  destruct (negb (nullish c)); simpl; [|reflexivity].
  destruct (implb (has_type_1 c) (has_recipient c)); simpl; [reflexivity|].
  rewrite andb_false_r. reflexivity.
Qed.

(** Two lists on which the code and the wording part: a type-1 channel
    whose second recipient is the user (the code answers [null], the
    wording the channel), and a type-1 channel without recipients (the
    code throws, the wording answers [null]). *)
Lemma isDmOpen_reads_first_recipient_only :
  (fst (Client.isDmOpen (mock (dm_server [channel "c1" 1 ["a"; "b"]] JNull) [])
          (Client.mk "T" true) "b" []) = Ok JNull
   /\ spec_isDmOpen "b" [channel "c1" 1 ["a"; "b"]] = JStr "c1"
   /\ ~ isDmOpen_as_stated (mock (dm_server [channel "c1" 1 ["a"; "b"]] JNull) [])
          (Client.mk "T" true) "b" [] [channel "c1" 1 ["a"; "b"]])
  /\ (fst (Client.isDmOpen (mock (dm_server [channel "c2" 1 []] JNull) [])
             (Client.mk "T" true) "u" []) = Throw (cannot_read JUndefined "id")
      /\ spec_isDmOpen "u" [channel "c2" 1 []] = JNull
      /\ ~ isDmOpen_as_stated (mock (dm_server [channel "c2" 1 []] JNull) [])
             (Client.mk "T" true) "u" [] [channel "c2" 1 []]).
Proof.
  split; (split; [reflexivity|]; split; [reflexivity|]);
    unfold isDmOpen_as_stated; intros H;
    match type of H with
    | (?P -> _) => assert (HP : P) by (eexists; split; reflexivity)
    end;
    specialize (H HP); discriminate H.
Qed.

(** C2, amended.  On a fetched list whose type-1 channels each have at
    least one recipient, [isDmOpen(userId)] returns [null] when no channel
    has both type 1 and [userId] as its first recipient, and otherwise the
    id of the first such channel.  When the type-1 channels each have
    exactly one recipient, that is the wording of the specification:
    [userId] among the recipients. *)
Theorem isDmOpen_first_match (W : World) (this : Client.t) (userId : string)
    (tr : trace) (resp : AxiosResponse) (chans : list value) :
  axios W tr (Client.dm_list_request this) = inr resp ->
  data resp = JArr chans ->
  forallb channel_ok chans = true ->
  fst (Client.isDmOpen W this userId tr) =
    Ok (match find (dm_match userId) chans with
        | Some c => id_of c
        | None => JNull
        end)
  /\ (forallb one_to_one_ok chans = true ->
      fst (Client.isDmOpen W this userId tr) = Ok (spec_isDmOpen userId chans)).
Proof.
  intros Hax Hd Hok.
  rewrite (isDmOpen_scan W this userId tr resp chans Hax Hd Hok). simpl.
  split; [reflexivity|].
  intros H1. unfold spec_isDmOpen.
  rewrite (sole_recipient_find userId chans H1). reflexivity.
Qed.

Lemma isDmOpen_first_match_witness :
  fst (Client.isDmOpen
         (mock (dm_server [channel "g" 3 ["u"; "v"]; channel "c1" 1 ["u"];
                           channel "c2" 1 ["u"]] JNull) [])
         (Client.mk "T" true) "u" []) = Ok (JStr "c1")
  /\ fst (Client.isDmOpen
         (mock (dm_server [channel "g" 3 ["u"; "v"]; channel "c1" 1 ["u"];
                           channel "c2" 1 ["u"]] JNull) [])
         (Client.mk "T" true) "w" []) = Ok JNull.
Proof.
  split.
  - apply (isDmOpen_first_match
             (mock (dm_server [channel "g" 3 ["u"; "v"]; channel "c1" 1 ["u"];
                               channel "c2" 1 ["u"]] JNull) [])
             (Client.mk "T" true) "u" []
             (mkResponse 200 "OK"
                (JArr [channel "g" 3 ["u"; "v"]; channel "c1" 1 ["u"];
                       channel "c2" 1 ["u"]]))
             [channel "g" 3 ["u"; "v"]; channel "c1" 1 ["u"]; channel "c2" 1 ["u"]]);
      reflexivity.
  - apply (isDmOpen_first_match
             (mock (dm_server [channel "g" 3 ["u"; "v"]; channel "c1" 1 ["u"];
                               channel "c2" 1 ["u"]] JNull) [])
             (Client.mk "T" true) "w" []
             (mkResponse 200 "OK"
                (JArr [channel "g" 3 ["u"; "v"]; channel "c1" 1 ["u"];
                       channel "c2" 1 ["u"]]))
             [channel "g" 3 ["u"; "v"]; channel "c1" 1 ["u"]; channel "c2" 1 ["u"]]);
      reflexivity.
Defined.

(** The scan stops with a [TypeError] at a type-1 channel with an empty
    recipients array, if nothing before it matched. *)
Lemma js_find_empty_recipients (userId : string) (pre post : list value)
    (c : value) :
  forallb channel_ok pre = true ->
  find (dm_match userId) pre = None ->
  has_type_1 c = true ->
  get_prop c "recipients" = Ok (JArr []) ->
  js_find (Client.dm_predicate userId) (pre ++ c :: post) =
    Throw (cannot_read JUndefined "id").
Proof.
  intros Hok Hnone Ht Hr.
  rewrite (js_find_skip userId pre (c :: post) Hok Hnone). simpl.
  unfold Client.dm_predicate, has_type_1 in *.
  destruct (get_prop c "type") as [ty|e]; [|discriminate Ht].
  cbn [obind]. rewrite Ht, Hr. reflexivity.
Qed.

(** C10.  [isDmOpen] reads [recipients[0].id] of the type-1 channels it
    visits without testing the array.  On a fetched list of channels, the
    call returns a value for every [userId] exactly when every type-1
    channel of the list has at least one recipient: under that
    precondition the scan cannot throw, and without it some [userId] makes
    the call fail.  In particular a type-1 channel with an empty recipients
    array, reached by the scan, makes the call fail with the [TypeError]
    of reading [id] of [undefined], which is printed and rethrown. *)
Theorem isDmOpen_recipient_access (W : World) (this : Client.t) (tr : trace)
    (resp : AxiosResponse) (chans : list value) :
  axios W tr (Client.dm_list_request this) = inr resp ->
  data resp = JArr chans ->
  forallb not_null chans = true ->
  ((forall userId, exists v,
       Client.isDmOpen W this userId tr
         = (Ok v, (tr ++ [EvRequest (Client.dm_list_request this)])%list))
   <-> forallb type_1_has_recipient chans = true)
  /\ (forall userId pre c post,
        chans = (pre ++ c :: post)%list ->
        forallb type_1_has_recipient pre = true ->
        find (dm_match userId) pre = None ->
        has_type_1 c = true ->
        get_prop c "recipients" = Ok (JArr []) ->
        Client.isDmOpen W this userId tr =
          (Throw (cannot_read JUndefined "id"),
           (tr ++ [EvRequest (Client.dm_list_request this);
                   EvConsoleError
                     [LStr "Error checking DM:";
                      LStr "Cannot read properties of undefined (reading 'id')"]])%list)).
Proof.
  intros Hax Hd Hnn. split; [split|].
  - intros Hsafe.
    destruct (forallb type_1_has_recipient chans) eqn:Hall; [reflexivity|].
    exfalso.
    destruct (forallb_first_failure _ _ Hall) as [pre [c [post [-> [Hpre Hc]]]]].
    rewrite forallb_app in Hnn. apply andb_prop in Hnn. destruct Hnn as [Hnpre _].
    assert (Hok : forallb channel_ok pre = true).
    { rewrite channel_ok_split, Hnpre, Hpre. reflexivity. }
    unfold type_1_has_recipient in Hc.
    destruct (has_type_1 c) eqn:Ht; simpl in Hc; [|discriminate Hc].
    destruct (dm_predicate_throws (unmatched_user pre) c Ht Hc) as [msg Hthrow].
    destruct (Hsafe (unmatched_user pre)) as [v Hv].
    rewrite (isDmOpen_scan_throws W this (unmatched_user pre) tr resp
               (pre ++ c :: post) msg Hax Hd) in Hv; [discriminate Hv|].
    rewrite (js_find_skip _ pre (c :: post) Hok (unmatched_user_no_match pre)).
    simpl. rewrite Hthrow. reflexivity.
  - intros Hall userId. eexists.
    apply (isDmOpen_scan W this userId tr resp chans Hax Hd).
    rewrite channel_ok_split, Hnn, Hall. reflexivity.
  - intros userId pre c post -> Hpre Hnone Ht Hr.
    rewrite forallb_app in Hnn. apply andb_prop in Hnn. destruct Hnn as [Hnpre _].
    assert (Hok : forallb channel_ok pre = true).
    { rewrite channel_ok_split, Hnpre, Hpre. reflexivity. }
    apply (isDmOpen_scan_throws W this userId tr resp (pre ++ c :: post) _ Hax Hd).
    apply js_find_empty_recipients; assumption.
Qed.

Lemma isDmOpen_recipient_access_witness :
  (exists v,
     Client.isDmOpen
       (mock (dm_server [channel "g" 3 []; channel "c1" 1 ["u"]] JNull) [])
       (Client.mk "T" true) "u" [] =
     (Ok v, [EvRequest (Client.dm_list_request (Client.mk "T" true))]))
  /\ Client.isDmOpen
       (mock (dm_server [channel "g" 3 []; channel "c0" 1 []; channel "c1" 1 ["u"]]
                JNull) [])
       (Client.mk "T" true) "u" [] =
     (Throw (cannot_read JUndefined "id"),
      [EvRequest (Client.dm_list_request (Client.mk "T" true));
       EvConsoleError
         [LStr "Error checking DM:";
          LStr "Cannot read properties of undefined (reading 'id')"]]).
Proof.
  split.
  - apply (proj2 (proj1 (isDmOpen_recipient_access
             (mock (dm_server [channel "g" 3 []; channel "c1" 1 ["u"]] JNull) [])
             (Client.mk "T" true) []
             (mkResponse 200 "OK" (JArr [channel "g" 3 []; channel "c1" 1 ["u"]]))
             [channel "g" 3 []; channel "c1" 1 ["u"]]
             eq_refl eq_refl eq_refl)) eq_refl "u").
  - apply (proj2 (isDmOpen_recipient_access
             (mock (dm_server [channel "g" 3 []; channel "c0" 1 []; channel "c1" 1 ["u"]]
                      JNull) [])
             (Client.mk "T" true) []
             (mkResponse 200 "OK"
                (JArr [channel "g" 3 []; channel "c0" 1 []; channel "c1" 1 ["u"]]))
             [channel "g" 3 []; channel "c0" 1 []; channel "c1" 1 ["u"]]
             eq_refl eq_refl eq_refl)
           "u" [channel "g" 3 []] (channel "c0" 1 []) [channel "c1" 1 ["u"]]);
      reflexivity.
Defined.

(** For one user id the scan stops at the first match, so a channel
    without recipients behind it is not read; another user id reaches it. *)
Example isDmOpen_stops_at_first_match :
  Client.isDmOpen
    (mock (dm_server [channel "c1" 1 ["u"]; channel "c0" 1 []] JNull) [])
    (Client.mk "T" true) "u" [] =
  (Ok (JStr "c1"), [EvRequest (Client.dm_list_request (Client.mk "T" true))])
  /\ fst (Client.isDmOpen
            (mock (dm_server [channel "c1" 1 ["u"]; channel "c0" 1 []] JNull) [])
            (Client.mk "T" true) "w" []) = Throw (cannot_read JUndefined "id").
Proof. split; reflexivity. Qed.

(** [isDmOpen] issues one request whatever happens: the GET of the list. *)
Lemma isDmOpen_requests (W : World) (this : Client.t) (userId : string)
    (tr : trace) :
  requests_of (snd (Client.isDmOpen W this userId tr)) =
    (requests_of tr ++ [Client.dm_list_request this])%list.
Proof.
  unfold Client.isDmOpen. run_monad.
  destruct (axios W tr (Client.dm_list_request this)) as [e|resp]; simpl.
  - rewrite <- app_assoc, requests_of_app. reflexivity.
  - destruct (Client.array_find (Client.dm_predicate userId) (data resp))
      as [found|e]; simpl.
    + destruct (truthy found); simpl.
      * destruct (get_prop found "id"); simpl;
          rewrite ?requests_of_app; simpl; rewrite ?app_nil_r; reflexivity.
      * rewrite requests_of_app. reflexivity.
    + rewrite <- app_assoc, requests_of_app. reflexivity.
Qed.

(** The test in the code is [if (existingChannelId)]: an id that is not
    [null] but is falsy, such as the empty string, is not taken as found,
    and a channel is created. *)
Lemma openOrGetDm_posts_on_empty_id :
  Client.isDmOpen (mock (dm_server [channel "" 1 ["u"]] (channel "new" 1 ["u"])) [])
    (Client.mk "T" true) "u" [] =
    (Ok (JStr ""), [EvRequest (Client.dm_list_request (Client.mk "T" true))])
  /\ Client.openOrGetDm
       (mock (dm_server [channel "" 1 ["u"]] (channel "new" 1 ["u"])) [])
       (Client.mk "T" true) "u" [] =
     (Ok (JStr "new"),
      [EvRequest (Client.dm_list_request (Client.mk "T" true));
       EvRequest (Client.dm_create_request (Client.mk "T" true) "u")])
  /\ ~ openOrGetDm_as_stated
         (mock (dm_server [channel "" 1 ["u"]] (channel "new" 1 ["u"])) [])
         (Client.mk "T" true) "u" [].
Proof.
  split; [reflexivity|]. split; [reflexivity|].
  intros H.
  destruct (H (JStr "") [EvRequest (Client.dm_list_request (Client.mk "T" true))]
              eq_refl) as [Hret _].
  - discriminate.
  - discriminate Hret.
Qed.

(** C3, amended.  When [isDmOpen] has returned a truthy id (not [null],
    not empty), [openOrGetDm] returns that id and issues nothing beyond
    the GET of the list: no creation POST.  When it has returned [null]
    (or another falsy value), [openOrGetDm] issues exactly one POST of a
    new DM channel with [{recipient_id: userId}] and, when that is
    fulfilled, returns the [id] of the created channel. *)
Theorem openOrGetDm_reuses_open_channel (W : World) (this : Client.t)
    (userId : string) (tr : trace) (existing : value) (tr1 : trace) :
  Client.isDmOpen W this userId tr = (Ok existing, tr1) ->
  (truthy existing = true ->
     Client.openOrGetDm W this userId tr = (Ok existing, tr1)
     /\ requests_of tr1 = (requests_of tr ++ [Client.dm_list_request this])%list)
  /\ (truthy existing = false ->
      requests_of (snd (Client.openOrGetDm W this userId tr)) =
        (requests_of tr ++ [Client.dm_list_request this;
                            Client.dm_create_request this userId])%list
      /\ forall resp,
           axios W tr1 (Client.dm_create_request this userId) = inr resp ->
           fst (Client.openOrGetDm W this userId tr) = get_prop (data resp) "id").
Proof.
  intros Hopen.
  assert (Hreq : requests_of tr1 =
                 (requests_of tr ++ [Client.dm_list_request this])%list).
  { pose proof (isDmOpen_requests W this userId tr) as H.
    rewrite Hopen in H. exact H. }
  split.
  - intros Ht. split; [|exact Hreq].
    unfold Client.openOrGetDm. run_monad. rewrite Hopen, Ht. reflexivity.
  - intros Hf. unfold Client.openOrGetDm. run_monad. rewrite Hopen, Hf.
    destruct (axios W tr1 (Client.dm_create_request this userId)) as [e|resp];
      simpl.
    + split; [|intros resp H; discriminate H].
      rewrite <- app_assoc, requests_of_app, Hreq. simpl.
      rewrite <- app_assoc. reflexivity.
    + split.
      * destruct (get_prop (data resp) "id"); simpl;
          rewrite ?requests_of_app, Hreq; simpl;
          rewrite <- ?app_assoc; reflexivity.
      * intros resp' H. injection H as <-.
        destruct (get_prop (data resp) "id"); reflexivity.
Qed.

Lemma openOrGetDm_reuses_open_channel_witness :
  Client.openOrGetDm
    (mock (dm_server [channel "c1" 1 ["u"]] (channel "new" 1 ["u"])) [])
    (Client.mk "T" true) "u" [] =
    (Ok (JStr "c1"), [EvRequest (Client.dm_list_request (Client.mk "T" true))])
  /\ fst (Client.openOrGetDm
            (mock (dm_server [channel "c1" 1 ["v"]] (channel "new" 1 ["u"])) [])
            (Client.mk "T" true) "u" []) = Ok (JStr "new").
Proof.
  split.
  - apply (proj1 (openOrGetDm_reuses_open_channel
             (mock (dm_server [channel "c1" 1 ["u"]] (channel "new" 1 ["u"])) [])
             (Client.mk "T" true) "u" [] (JStr "c1")
             [EvRequest (Client.dm_list_request (Client.mk "T" true))] eq_refl)).
    reflexivity.
  - apply (proj2 (proj2 (openOrGetDm_reuses_open_channel
             (mock (dm_server [channel "c1" 1 ["v"]] (channel "new" 1 ["u"])) [])
             (Client.mk "T" true) "u" [] JNull
             [EvRequest (Client.dm_list_request (Client.mk "T" true))] eq_refl)
             eq_refl) (mkResponse 200 "OK" (channel "new" 1 ["u"]))).
    reflexivity.
Defined.

(** ** [dm] *)







(** [dm] on the mocked server: the channel exists, the channel is created,
    the resolution fails. *)
Example dm_existing_channel :
  requests_of (snd (Client.dm
     (mock (dm_server [channel "c1" 1 ["u"]] (channel "new" 1 ["u"])) [])
     (Client.mk "T" true) "u" "hi" [])) =
  [Client.dm_list_request (Client.mk "T" true);
   send_request (Client.mk "T" true) "c1" "hi"].
Proof. reflexivity. Qed.

Example dm_created_channel :
  requests_of (snd (Client.dm
     (mock (dm_server [] (channel "new" 1 ["u"])) [])
     (Client.mk "T" true) "u" "hi" [])) =
  [Client.dm_list_request (Client.mk "T" true);
   Client.dm_create_request (Client.mk "T" true) "u";
   send_request (Client.mk "T" true) "new" "hi"].
Proof. reflexivity. Qed.

Example dm_resolution_fails :
  Client.dm (mock refusing_server []) (Client.mk "T" true) "u" "hi" [] =
  (Ok JUndefined,
   [EvRequest (Client.dm_list_request (Client.mk "T" true));
    EvConsoleError [LStr "Error checking DM:"; LVal forbidden];
    EvConsoleError [LStr "Error opening DM:"; LVal forbidden];
    EvConsoleLog [LErr refused]]).
Proof. reflexivity. Qed.

(** ** What a computation may emit *)

Lemma emits_ret {A} (P : event -> Prop) (a : A) : emits P (ret a).
Proof. intros tr. exists []. split; [symmetry; apply app_nil_r | constructor]. Qed.

Lemma emits_throw {A} (P : event -> Prop) (e : error) : emits P (@throw A e).
Proof. intros tr. exists []. split; [symmetry; apply app_nil_r | constructor]. Qed.

Lemma emits_lift {A} (P : event -> Prop) (o : outcome A) : emits P (lift o).
Proof. intros tr. exists []. split; [symmetry; apply app_nil_r | constructor]. Qed.

Lemma emits_emit (P : event -> Prop) (ev : event) : P ev -> emits P (emit ev).
Proof. intros H tr. exists [ev]. split; [reflexivity | repeat constructor; exact H]. Qed.

Lemma emits_call (W : World) (P : event -> Prop) (r : request) :
  P (EvRequest r) -> emits P (call W r).
Proof.
  intros H tr. exists [EvRequest r]. unfold call.
  destruct (axios W tr r); (split; [reflexivity | repeat constructor; exact H]).
Qed.

Lemma emits_call_at (W : World) (P : event -> Prop) (r : trace -> request) :
  (forall tr, P (EvRequest (r tr))) -> emits P (fun tr => call W (r tr) tr).
Proof.
  intros H tr. exists [EvRequest (r tr)]. unfold call.
  destruct (axios W tr (r tr)); (split; [reflexivity | repeat constructor; apply H]).
Qed.

Lemma emits_read_file (W : World) (P : event -> Prop) (path : string) :
  P (EvReadFile path) -> emits P (read_file W path).
Proof.
  intros H tr. exists [EvReadFile path]. unfold read_file.
  destruct (readFileSync W tr path);
    (split; [reflexivity | repeat constructor; exact H]).
Qed.

Lemma emits_stat_size (W : World) (P : event -> Prop) (path : string) :
  P (EvStat path) -> emits P (stat_size W path).
Proof.
  intros H tr. exists [EvStat path]. unfold stat_size.
  destruct (statSync W tr path);
    (split; [reflexivity | repeat constructor; exact H]).
Qed.

Lemma emits_bind {A B} (P : event -> Prop) (m : M A) (k : A -> M B) :
  emits P m -> (forall a, emits P (k a)) -> emits P (bind m k).
Proof.
  intros Hm Hk tr. unfold bind. destruct (Hm tr) as [new1 [E1 F1]].
  destruct (m tr) as [[a|e] tr1]; simpl in E1; subst tr1.
  - destruct (Hk a (tr ++ new1)%list) as [new2 [E2 F2]].
    exists (new1 ++ new2)%list. rewrite E2, app_assoc.
    split; [reflexivity | apply Forall_app; split; assumption].
  - exists new1. split; [reflexivity | exact F1].
Qed.

Lemma emits_try_catch {A} (P : event -> Prop) (m : M A) (h : error -> M A) :
  emits P m -> (forall e, emits P (h e)) -> emits P (try_catch m h).
Proof.
  intros Hm Hh tr. unfold try_catch. destruct (Hm tr) as [new1 [E1 F1]].
  destruct (m tr) as [[a|e] tr1]; simpl in E1; subst tr1.
  - exists new1. split; [reflexivity | exact F1].
  - destruct (Hh e (tr ++ new1)%list) as [new2 [E2 F2]].
    exists (new1 ++ new2)%list. rewrite E2, app_assoc.
    split; [reflexivity | apply Forall_app; split; assumption].
Qed.

Lemma emits_detach {A} (P : event -> Prop) (m : M A) :
  (forall e, P (EvUnhandledRejection e)) -> emits P m -> emits P (detach m).
Proof.
  intros Hu Hm tr. unfold detach. destruct (Hm tr) as [new1 [E1 F1]].
  destruct (m tr) as [[a|e] tr1]; simpl in E1; subst tr1.
  - exists new1. split; [reflexivity | exact F1].
  - exists (new1 ++ [EvUnhandledRejection e])%list. simpl. rewrite app_assoc.
    split; [reflexivity|]. apply Forall_app. split; [exact F1|].
    repeat constructor. apply Hu.
Qed.

Ltac emits_step :=
  first
    [ apply emits_ret
    | apply emits_throw
    | apply emits_lift
    | apply emits_bind; [|intros ?]
    | apply emits_try_catch; [|intros ?]
    | apply emits_detach; [intros ?|]
    | apply emits_emit
    | apply emits_call
    | apply emits_read_file
    | apply emits_stat_size
    | match goal with
      | |- emits _ (if ?b then _ else _) => destruct b
      | |- emits _ (match ?x with _ => _ end) => destruct x
      end ].

Ltac emits_auto := unfold console_log, console_error; repeat emits_step.

Lemma prefix_refl_app (s t : string) : prefix s (s ++ t) = true.
Proof.
  induction s as [|c s IH]; simpl.
  - destruct t; reflexivity.
  - destruct (ascii_dec c c) as [_|n]; [exact IH | contradiction n; reflexivity].
Qed.

Lemma prefix_refl (s : string) : prefix s s = true.
Proof.
  induction s as [|c s IH]; simpl; [reflexivity|].
  destruct (ascii_dec c c) as [_|n]; [exact IH | contradiction n; reflexivity].
Qed.

Lemma discord_api_v10 (path : string) :
  discord_api (Client.api_v10 ++ String "/" path) = true.
Proof. unfold discord_api. simpl. destruct path; reflexivity. Qed.

(** The dispatcher's request is authorized when its endpoint is a path. *)
Lemma makeRequest_authorized (W : World) (this : Client.t) (endpoint : string)
    (m : method) (d : value) :
  emits (authorized this) (Client.makeRequest W this (String "/" endpoint) m d).
Proof.
  unfold Client.makeRequest. emits_auto; simpl; auto.
  split; [left; reflexivity | apply discord_api_v10].
Qed.

Lemma sendMessage_authorized (W : World) (this : Client.t) (channelId : value)
    (content : string) :
  emits (authorized this) (Client.sendMessage W this channelId content).
Proof.
  unfold Client.sendMessage.
  apply emits_bind; [apply emits_lift | intros channel].
  apply makeRequest_authorized.
Qed.

Lemma isDmOpen_authorized (W : World) (this : Client.t) (userId : string) :
  emits (authorized this) (Client.isDmOpen W this userId).
Proof.
  unfold Client.isDmOpen. emits_auto; simpl; auto.
  all: try (split; [left; reflexivity | reflexivity]).
Qed.

Lemma openOrGetDm_authorized (W : World) (this : Client.t) (userId : string) :
  emits (authorized this) (Client.openOrGetDm W this userId).
Proof.
  unfold Client.openOrGetDm.
  apply emits_try_catch; [|intros e; emits_auto; simpl; auto].
  apply emits_bind; [apply isDmOpen_authorized|].
  intros existing. emits_auto; simpl; auto.
  all: try (split; [left; reflexivity | reflexivity]).
Qed.

Lemma dm_authorized (W : World) (this : Client.t) (userId message : string) :
  emits (authorized this) (Client.dm W this userId message).
Proof.
  unfold Client.dm.
  apply emits_try_catch; [|intros e; emits_auto; simpl; auto].
  apply emits_bind; [apply openOrGetDm_authorized|].
  intros user. apply emits_bind; [|intros _; apply emits_ret].
  apply emits_detach; [intros e; exact I|].
  apply sendMessage_authorized.
Qed.

(** X1.  Every request a call of the bot client issues, the image download
    apart, goes to the Discord API (v10 or v9) and carries
    [Authorization: Bot <token>], whatever the transport answers. *)
Theorem bot_requests_authorized (W : World) (this : Client.t) (o : Client.op) :
  is_download o = false ->
  emits (authorized this) (Client.run W this o).
Proof.
  intros H. destruct o; try discriminate H; simpl;
    try (apply makeRequest_authorized);
    try (apply sendMessage_authorized);
    try (unfold Client.addReaction, Client.removeReaction;
         apply emits_bind; [apply emits_lift | intros encoded];
         apply makeRequest_authorized);
    try (apply isDmOpen_authorized);
    try (apply openOrGetDm_authorized);
    try (apply dm_authorized).
  - unfold Client.createWebhook. emits_auto; simpl; auto.
    all: try (split; [left; reflexivity | reflexivity]).
  - unfold Client.deleteWebhook. emits_auto; simpl; auto.
    all: try (split; [left; reflexivity | reflexivity]).
Qed.

Lemma bot_requests_authorized_witness :
  is_download (Client.Dm "u" "hi") = false
  /\ emits (authorized (Client.mk "T" true))
       (Client.run (mock (dm_server [] (channel "new" 1 ["u"])) [])
          (Client.mk "T" true) (Client.Dm "u" "hi")).
Proof.
  split; [reflexivity|].
  apply (bot_requests_authorized (mock (dm_server [] (channel "new" 1 ["u"])) [])
           (Client.mk "T" true) (Client.Dm "u" "hi")).
  reflexivity.
Defined.

(** X2.  [downloadImage] emits one thing only, a request to the URL it is
    given, and that request has no header: the bot token is never sent to
    the image host, and nothing is printed. *)
Theorem downloadImage_sends_no_credentials (W : World) (this : Client.t)
    (url : string) :
  emits (bare_request_to url) (Client.downloadImage W this url)
  /\ forall tr, requests_of (snd (Client.downloadImage W this url tr)) =
                (requests_of tr ++ [mkRequest GET url NoBody [] (Some "arraybuffer")])%list.
Proof.
  split.
  - unfold Client.downloadImage. emits_auto. simpl. split; reflexivity.
  - intros tr. unfold Client.downloadImage. run_monad.
    destruct (axios W tr _); simpl; rewrite requests_of_app; reflexivity.
Qed.

(** ** The webhook client's requests *)

Lemma webhook_scoped_at_url (this : WebhookUtils.t) (m : method) (b : body)
    (h : list (string * string)) (rt : option string) :
  (forall v, ~ In ("Authorization", v) h) ->
  webhook_scoped this (EvRequest (mkRequest m (WebhookUtils.webhookUrl this) b h rt)).
Proof. intros H. simpl. split; [apply prefix_refl | exact H]. Qed.

(** X3.  Every request a call of the webhook client issues goes to the
    webhook URL or below it and carries no [Authorization] header,
    whatever the transport and the file system answer. *)
Theorem webhook_requests_scoped (W : World) (this : WebhookUtils.t)
    (o : WebhookUtils.op) :
  emits (webhook_scoped this) (WebhookUtils.run W this o).
Proof.
  assert (Hnone : forall v : string, ~ In ("Authorization", v) (@nil (string * string)))
    by (intros v []).
  destruct o; simpl;
    unfold WebhookUtils.setRateLimit, WebhookUtils.setWebhookOwner,
      WebhookUtils.sendFile, WebhookUtils.sendMessage,
      WebhookUtils.updateWebhook, WebhookUtils.deleteMessage,
      WebhookUtils.sendSimpleEmbed, WebhookUtils.deleteAllMessages,
      WebhookUtils.info, WebhookUtils.sendMultipleEmbeds,
      WebhookUtils.patch, WebhookUtils.post;
    unfold console_log, console_error;
    repeat first [ apply emits_call_at; intros ? | emits_step ];
    try exact I;
    try (apply webhook_scoped_at_url; exact Hnone).
  - apply webhook_scoped_at_url. intros v [H|[]]. discriminate H.
  - simpl. split; [apply prefix_refl_app | exact Hnone].
Qed.

Lemma webhook_operations_swallow_witness :
  WebhookUtils.is_info (WebhookUtils.DeleteMessage "55") = false
  /\ WebhookUtils.is_setWebhookOwner (WebhookUtils.DeleteMessage "55") = false
  /\ fst (WebhookUtils.run (mock refusing_server [])
            (WebhookUtils.mk "https://discord.com/api/webhooks/1/t")
            (WebhookUtils.DeleteMessage "55") []) = Ok JUndefined.
Proof.
  split; [reflexivity|]. split; [reflexivity|].
  apply (webhook_operations_swallow (mock refusing_server [])
           (WebhookUtils.mk "https://discord.com/api/webhooks/1/t")
           (WebhookUtils.DeleteMessage "55") []); reflexivity.
Defined.

Lemma webhook_info_rethrows_witness :
  axios (mock refusing_server []) []
    (mkRequest GET "https://discord.com/api/webhooks/1/t" NoBody [] None) = inl refused
  /\ WebhookUtils.info (mock refusing_server [])
       (WebhookUtils.mk "https://discord.com/api/webhooks/1/t") [] =
     (Throw refused,
      [EvRequest (mkRequest GET "https://discord.com/api/webhooks/1/t" NoBody [] None);
       EvConsoleError
         [LStr "Error fetching webhook information: Request failed with status code 403"]]).
Proof.
  split; [reflexivity|].
  apply (webhook_info_rethrows (mock refusing_server [])
           (WebhookUtils.mk "https://discord.com/api/webhooks/1/t") [] refused).
  reflexivity.
Defined.

(** X6.  [updateWebhook] reads the image first; when the read fails the
    error reaches the caller and no request is made.  Otherwise the call
    returns normally, the avatar PATCH is issued first, and the name PATCH
    is issued only when the avatar PATCH has been fulfilled. *)
Theorem updateWebhook_order (W : World) (this : WebhookUtils.t)
    (imagePath newName : string) (tr : trace) :
  match readFileSync W tr imagePath with
  | inl e =>
      WebhookUtils.updateWebhook W this imagePath newName tr =
        (Throw e, (tr ++ [EvReadFile imagePath])%list)
  | inr image =>
      fst (WebhookUtils.updateWebhook W this imagePath newName tr) = Ok JUndefined
      /\ requests_of (snd (WebhookUtils.updateWebhook W this imagePath newName tr)) =
         (requests_of tr ++
          match axios W (tr ++ [EvReadFile imagePath])%list (avatar_request this image) with
          | inl _ => [avatar_request this image]
          | inr _ => [avatar_request this image; name_request this newName]
          end)%list
  end.
Proof.
  unfold WebhookUtils.updateWebhook. run_monad.
  destruct (readFileSync W tr imagePath) as [e|image]; [reflexivity|].
  fold (avatar_request this image). fold (name_request this newName).
  destruct (axios W (tr ++ [EvReadFile imagePath])%list (avatar_request this image))
    as [e|resp]; simpl.
  - split; [reflexivity|]. rewrite !requests_of_app. simpl.
    rewrite !app_nil_r. reflexivity.
  - destruct (axios W _ (name_request this newName)) as [e|resp2]; simpl;
      (split; [reflexivity|]); rewrite !requests_of_app; simpl;
      rewrite ?app_nil_r, <- ?app_assoc; reflexivity.
Qed.

(** X7.  [sendFile] always returns normally.  It posts the multipart form
    (the file under its base name, then the message) exactly when both the
    read and the stat of the file succeed, and issues no request
    otherwise. *)
Theorem sendFile_requests (W : World) (this : WebhookUtils.t)
    (message filePath : string) (tr : trace) :
  fst (WebhookUtils.sendFile W this message filePath tr) = Ok JUndefined
  /\ requests_of (snd (WebhookUtils.sendFile W this message filePath tr)) =
     (requests_of tr ++
      match readFileSync W tr filePath with
      | inl _ => []
      | inr fileData =>
          match statSync W (tr ++ [EvReadFile filePath])%list filePath with
          | inl _ => []
          | inr size =>
              [file_request W this message filePath fileData
                 (((tr ++ [EvReadFile filePath]) ++ [EvStat filePath]) ++
                  [EvConsoleLog
                     [LStr ("File size: " ++ chalk W red (string_of_Z size)
                            ++ " bytes (" ++ chalk W red (kb_to_string W size)
                            ++ " KB)")]])%list]
          end
      end)%list.
Proof.
  unfold WebhookUtils.sendFile. run_monad.
  destruct (readFileSync W tr filePath) as [e|fileData]; simpl.
  - split; [reflexivity|]. rewrite !requests_of_app. simpl.
    rewrite !app_nil_r. reflexivity.
  - destruct (statSync W (tr ++ [EvReadFile filePath])%list filePath)
      as [e|size]; simpl.
    + split; [reflexivity|]. rewrite !requests_of_app. simpl.
      rewrite !app_nil_r. reflexivity.
    + unfold file_request.
      match goal with
      | |- context [axios W ?t ?r] => destruct (axios W t r) as [e|resp]
      end; simpl; (split; [reflexivity|]); rewrite !requests_of_app; simpl;
        rewrite ?app_nil_r; reflexivity.
Qed.

(** X8.  Whatever the transport answers, [sendMessage(m)] issues exactly
    one request, a POST of [{content: m}] to the webhook URL, and
    [deleteMessage(id)] exactly one, a DELETE of
    [<webhook URL>/messages/<id>]; both return normally. *)
Theorem webhook_message_requests (W : World) (this : WebhookUtils.t)
    (m : string) (tr : trace) :
  (fst (WebhookUtils.sendMessage W this m tr) = Ok JUndefined
   /\ requests_of (snd (WebhookUtils.sendMessage W this m tr)) =
      (requests_of tr ++
       [mkRequest POST (WebhookUtils.webhookUrl this)
          (JsonBody (JObj [("content", JStr m)])) [] None])%list)
  /\ (fst (WebhookUtils.deleteMessage W this m tr) = Ok JUndefined
      /\ requests_of (snd (WebhookUtils.deleteMessage W this m tr)) =
         (requests_of tr ++
          [mkRequest DELETE (WebhookUtils.webhookUrl this ++ "/messages/" ++ m)
             NoBody [] None])%list).
Proof.
  split.
  - unfold WebhookUtils.sendMessage, WebhookUtils.post. run_monad.
    match goal with
    | |- context [axios W ?t ?r] => destruct (axios W t r) as [e|resp]
    end; simpl; (split; [reflexivity|]); rewrite !requests_of_app; simpl;
      rewrite ?app_nil_r; reflexivity.
  - unfold WebhookUtils.deleteMessage. run_monad.
    match goal with
    | |- context [axios W ?t ?r] => destruct (axios W t r) as [e|resp]
    end; simpl; (split; [reflexivity|]); rewrite !requests_of_app; simpl;
      rewrite ?app_nil_r; reflexivity.
Qed.

(** ** How many requests a call of the bot client issues *)

Lemma makeRequest_requests (W : World) (this : Client.t) (endpoint : string)
    (m : method) (d : value) (tr : trace) :
  requests_of (snd (Client.makeRequest W this endpoint m d tr)) =
    (requests_of tr ++ [Client.dispatcher_request this endpoint m d])%list.
Proof.
  destruct (axios W tr (Client.dispatcher_request this endpoint m d))
    as [e|resp] eqn:Hax.
  - rewrite (makeRequest_rejected W _ _ _ _ _ e Hax). simpl.
    rewrite requests_of_app. reflexivity.
  - rewrite (makeRequest_fulfilled W _ _ _ _ _ resp Hax). simpl.
    rewrite requests_of_app. simpl.
    destruct (Client.logging this); reflexivity.
Qed.

Lemma openOrGetDm_requests (W : World) (this : Client.t) (userId : string)
    (tr : trace) :
  exists rs,
    requests_of (snd (Client.openOrGetDm W this userId tr)) =
      (requests_of tr ++ Client.dm_list_request this :: rs)%list
    /\ length rs <= 1.
Proof.
  unfold Client.openOrGetDm. run_monad.
  pose proof (isDmOpen_requests W this userId tr) as Hreq.
  destruct (Client.isDmOpen W this userId tr) as [[existing|e] tr1];
    simpl in Hreq.
  - destruct (truthy existing); simpl.
    + exists []. rewrite Hreq. split; [reflexivity | simpl; lia].
    + exists [Client.dm_create_request this userId].
      split; [|simpl; lia].
      destruct (axios W tr1 (Client.dm_create_request this userId)) as [e|resp];
        simpl.
      * rewrite !requests_of_app, Hreq. simpl.
        rewrite app_nil_r, <- app_assoc. reflexivity.
      * destruct (get_prop (data resp) "id"); simpl;
          rewrite !requests_of_app, Hreq; simpl;
          rewrite ?app_nil_r, <- app_assoc; reflexivity.
  - exists []. split; [|simpl; lia].
    simpl. rewrite requests_of_app, Hreq. simpl. rewrite app_nil_r. reflexivity.
Qed.

Lemma sendMessage_requests (W : World) (this : Client.t) (channelId : value)
    (content : string) (tr : trace) :
  requests_of (snd (Client.sendMessage W this channelId content tr)) =
    (requests_of tr ++
     match to_string W channelId with
     | Ok channel => [send_request this channel content]
     | Throw _ => []
     end)%list.
Proof.
  unfold Client.sendMessage, bind, lift.
  destruct (to_string W channelId) as [channel|e]; cbv beta iota zeta.
  - apply makeRequest_requests.
  - simpl. symmetry. apply app_nil_r.
Qed.

Lemma dm_requests (W : World) (this : Client.t) (userId message : string)
    (tr : trace) :
  exists rs,
    requests_of (snd (Client.dm W this userId message tr)) =
      (requests_of tr ++ Client.dm_list_request this :: rs)%list
    /\ length rs <= 2.
Proof.
  unfold Client.dm. run_monad.
  destruct (openOrGetDm_requests W this userId tr) as [rs [Hreq Hlen]].
  destruct (Client.openOrGetDm W this userId tr) as [[user|e] tr1];
    simpl in Hreq.
  - pose proof (sendMessage_requests W this user message tr1) as Hsend.
    exists (rs ++ match to_string W user with
                  | Ok channel => [send_request this channel message]
                  | Throw _ => []
                  end)%list.
    split.
    + destruct (Client.sendMessage W this user message tr1) as [[v|e] tr2];
        simpl in Hsend; simpl;
        rewrite ?requests_of_app, Hsend, Hreq; simpl;
        rewrite ?app_nil_r, <- app_assoc; reflexivity.
    + rewrite length_app. destruct (to_string W user); simpl; lia.
  - exists rs. split; [|lia].
    simpl. rewrite requests_of_app, Hreq. simpl. apply app_nil_r.
Qed.

(** X9.  No retries: whatever the transport answers, a call of a bot
    operation issues at most three requests ([dm]), two ([openOrGetDm])
    or one (every other operation).  It issues at least one, unless its
    arguments are rejected while the path is built ([sendMessage],
    [addReaction], [removeReaction]), in which case it issues none. *)
Theorem bot_request_count (W : World) (this : Client.t) (o : Client.op)
    (tr : trace) :
  exists rs,
    requests_of (snd (Client.run W this o tr)) = (requests_of tr ++ rs)%list
    /\ length rs <= max_requests o
    /\ match rejected_arguments W o with
       | Some _ => rs = []
       | None => 1 <= length rs
       end.
Proof.
  destruct o; simpl;
    try (eexists; split; [apply makeRequest_requests | simpl; lia]).
  - exists (match to_string W channelId with
            | Ok channel => [send_request this channel content]
            | Throw _ => []
            end).
    split; [apply sendMessage_requests|].
    destruct (to_string W channelId); simpl; split; auto.
  - unfold Client.addReaction, bind, lift.
    destruct (encodeURIComponent emoji) as [encoded|e]; cbv beta iota zeta.
    + eexists; split; [apply makeRequest_requests | simpl; lia].
    + exists []. simpl. rewrite app_nil_r. split; [reflexivity | split; auto].
  - unfold Client.removeReaction, bind, lift.
    destruct (encodeURIComponent emoji) as [encoded|e]; cbv beta iota zeta.
    + eexists; split; [apply makeRequest_requests | simpl; lia].
    + exists []. simpl. rewrite app_nil_r. split; [reflexivity | split; auto].
  - eexists; split; [apply isDmOpen_requests | simpl; lia].
  - destruct (dm_requests W this userId message tr) as [rs [H L]].
    eexists; split; [exact H | simpl; lia].
  - destruct (openOrGetDm_requests W this userId tr) as [rs [H L]].
    eexists; split; [exact H | simpl; lia].
  - exists [mkRequest POST
              (Client.api_v9 ++ "/channels/" ++ channelId ++ "/webhooks")
              (JsonBody (JObj [("name", JStr webhookName);
                               ("avatar", JStr webhookImage)]))
              (Client.auth_header this) None].
    split; [|simpl; lia].
    unfold Client.createWebhook. run_monad.
    destruct (axios W tr _) as [e|resp]; simpl.
    + destruct (error_response e); simpl; rewrite !requests_of_app; simpl;
        rewrite ?app_nil_r; reflexivity.
    + destruct (Client.logging this); simpl;
        destruct (obind (get_prop (data resp) "id") (to_string W))
          as [wid|e1]; simpl;
        try (destruct (obind (get_prop (data resp) "token") (to_string W))
               as [wtoken|e2]; simpl);
        repeat match goal with
          | |- context [error_response ?e] => destruct (error_response e); simpl
          end;
        rewrite !requests_of_app; simpl; rewrite ?app_nil_r; reflexivity.
  - exists [mkRequest DELETE (Client.api_v9 ++ "/webhooks/" ++ webhookId) NoBody
              (Client.auth_header this) None].
    split; [|simpl; lia].
    unfold Client.deleteWebhook. run_monad.
    destruct (axios W tr _) as [e|resp]; simpl.
    + destruct (error_response e); simpl; rewrite !requests_of_app; simpl;
        rewrite ?app_nil_r; reflexivity.
    + destruct (Client.logging this); simpl;
        rewrite !requests_of_app; simpl; rewrite ?app_nil_r; reflexivity.
  - exists [mkRequest GET url NoBody [] (Some "arraybuffer")].
    split; [|simpl; lia].
    unfold Client.downloadImage. run_monad.
    destruct (axios W tr _) as [e|resp]; simpl;
      [|destruct (buffer_from W (data resp))]; simpl;
      rewrite requests_of_app; reflexivity.
Qed.

(** ** Failures of the bot client *)

(** A handler that prints the error and rethrows it leaves its line last. *)
Lemma rethrow_logged {A} (m : M A) (label : string) (tr : trace) (e : error) :
  fst (try_catch m
         (fun error =>
            console_error [LStr label; payload_or_message error] ;;
            throw error) tr) = Throw e ->
  exists tr0,
    snd (try_catch m
           (fun error =>
              console_error [LStr label; payload_or_message error] ;;
              throw error) tr) =
      (tr0 ++ [EvConsoleError [LStr label; payload_or_message e]])%list.
Proof.
  run_monad. destruct (m tr) as [[a|e'] tr']; simpl; [discriminate|].
  intros H. injection H as ->. exists tr'. reflexivity.
Qed.

Lemma dm_returns (W : World) (this : Client.t) (userId message : string)
    (tr : trace) :
  fst (Client.dm W this userId message tr) = Ok JUndefined.
Proof.
  unfold Client.dm. run_monad.
  destruct (Client.openOrGetDm W this userId tr) as [[user|e] tr1];
    [|reflexivity].
  destruct (Client.sendMessage W this user message tr1) as [[v|e] tr2];
    reflexivity.
Qed.

(** X14.  An operation of the bot client other than [createWebhook],
    [deleteWebhook] and [downloadImage] does not fail silently once it
    has gone to the transport: when its call throws [e], either its
    arguments were rejected while the path was built ([sendMessage],
    [addReaction], [removeReaction]) and nothing at all has happened, or
    the last thing it did was to print a labelled line with [e]'s payload
    (or message) by [console.error]. *)
Theorem bot_failures_are_logged (W : World) (this : Client.t) (o : Client.op)
    (tr : trace) (e : error) :
  rethrows_logged o = true ->
  fst (Client.run W this o tr) = Throw e ->
  (rejected_arguments W o = Some e /\ snd (Client.run W this o tr) = tr)
  \/ exists tr0 label,
       snd (Client.run W this o tr) =
         (tr0 ++ [EvConsoleError [LStr label; payload_or_message e]])%list.
Proof.
  intros Ho Hthrow.
  destruct o; try discriminate Ho; simpl in *;
    try (right; destruct (rethrow_logged _ _ _ _ Hthrow) as [tr0 H];
         exists tr0; eexists; exact H).
  - unfold Client.sendMessage, bind, lift in *.
    destruct (to_string W channelId) as [channel|e0]; cbv beta iota zeta in *.
    + right. destruct (rethrow_logged _ _ _ _ Hthrow) as [tr0 H].
      exists tr0; eexists; exact H.
    + left. simpl in Hthrow. injection Hthrow as ->. split; reflexivity.
  - unfold Client.addReaction, bind, lift in *.
    destruct (encodeURIComponent emoji) as [encoded|e0]; cbv beta iota zeta in *.
    + right. destruct (rethrow_logged _ _ _ _ Hthrow) as [tr0 H].
      exists tr0; eexists; exact H.
    + left. simpl in Hthrow. injection Hthrow as ->. split; reflexivity.
  - unfold Client.removeReaction, bind, lift in *.
    destruct (encodeURIComponent emoji) as [encoded|e0]; cbv beta iota zeta in *.
    + right. destruct (rethrow_logged _ _ _ _ Hthrow) as [tr0 H].
      exists tr0; eexists; exact H.
    + left. simpl in Hthrow. injection Hthrow as ->. split; reflexivity.
  - rewrite dm_returns in Hthrow. discriminate Hthrow.
Qed.

Lemma bot_failures_are_logged_witness :
  rethrows_logged (Client.OpenOrGetDm "u") = true
  /\ fst (Client.run (mock refusing_server []) (Client.mk "T" true)
            (Client.OpenOrGetDm "u") []) = Throw refused
  /\ ((rejected_arguments (mock refusing_server []) (Client.OpenOrGetDm "u")
        = Some refused
       /\ snd (Client.run (mock refusing_server []) (Client.mk "T" true)
                 (Client.OpenOrGetDm "u") []) = [])
      \/ exists tr0 label,
           snd (Client.run (mock refusing_server []) (Client.mk "T" true)
                  (Client.OpenOrGetDm "u") []) =
             (tr0 ++ [EvConsoleError [LStr label; payload_or_message refused]])%list).
Proof.
  split; [reflexivity|]. split; [reflexivity|].
  apply (bot_failures_are_logged (mock refusing_server []) (Client.mk "T" true)
           (Client.OpenOrGetDm "u") [] refused); reflexivity.
Defined.

(** X10.  When the GET of the DM channel list is rejected with [e], [dm]
    issues nothing else, the failure is printed three times (by
    [isDmOpen], by [openOrGetDm] and by [dm] itself) and [dm] returns
    normally. *)
Theorem dm_failure_reported (W : World) (this : Client.t)
    (userId message : string) (tr : trace) (e : error) :
  axios W tr (Client.dm_list_request this) = inl e ->
  Client.dm W this userId message tr =
    (Ok JUndefined,
     (tr ++ [EvRequest (Client.dm_list_request this);
             EvConsoleError [LStr "Error checking DM:"; payload_or_message e];
             EvConsoleError [LStr "Error opening DM:"; payload_or_message e];
             EvConsoleLog [LErr e]])%list).
Proof.
  intros H. unfold Client.dm, Client.openOrGetDm, Client.isDmOpen. run_monad.
  rewrite H. rewrite <- !app_assoc. reflexivity.
Qed.

Lemma dm_failure_reported_witness :
  axios (mock refusing_server []) [] (Client.dm_list_request (Client.mk "T" true))
    = inl refused
  /\ Client.dm (mock refusing_server []) (Client.mk "T" true) "u" "hi" [] =
     (Ok JUndefined,
      [EvRequest (Client.dm_list_request (Client.mk "T" true));
       EvConsoleError [LStr "Error checking DM:"; LVal forbidden];
       EvConsoleError [LStr "Error opening DM:"; LVal forbidden];
       EvConsoleLog [LErr refused]]).
Proof.
  split; [reflexivity|].
  apply (dm_failure_reported (mock refusing_server []) (Client.mk "T" true)
           "u" "hi" [] refused).
  reflexivity.
Defined.

(** X11.  When the list request is fulfilled with a body that is not an
    array (an error object, [null], a string), [isDmOpen] fails with a
    [TypeError], which is printed and rethrown; it does not answer
    [null]. *)
Theorem isDmOpen_not_an_array (W : World) (this : Client.t) (userId : string)
    (tr : trace) (resp : AxiosResponse) :
  axios W tr (Client.dm_list_request this) = inr resp ->
  is_array (data resp) = false ->
  exists msg,
    Client.isDmOpen W this userId tr =
      (Throw (TypeError msg),
       (tr ++ [EvRequest (Client.dm_list_request this);
               EvConsoleError [LStr "Error checking DM:"; LStr msg]])%list).
Proof.
  intros Hax Harr. unfold Client.isDmOpen. run_monad. rewrite Hax.
  destruct (data resp); try discriminate Harr; simpl;
    eexists; rewrite <- app_assoc; reflexivity.
Qed.

Lemma isDmOpen_not_an_array_witness :
  axios (mock (fun _ => ok_200 forbidden) []) []
    (Client.dm_list_request (Client.mk "T" true)) = inr (mkResponse 200 "OK" forbidden)
  /\ is_array forbidden = false
  /\ exists msg,
       Client.isDmOpen (mock (fun _ => ok_200 forbidden) []) (Client.mk "T" true)
         "u" [] =
       (Throw (TypeError msg),
        [EvRequest (Client.dm_list_request (Client.mk "T" true));
         EvConsoleError [LStr "Error checking DM:"; LStr msg]]).
Proof.
  split; [reflexivity|]. split; [reflexivity|].
  apply (isDmOpen_not_an_array (mock (fun _ => ok_200 forbidden) [])
           (Client.mk "T" true) "u" [] (mkResponse 200 "OK" forbidden));
    reflexivity.
Defined.

(** X12.  The transport's error never reaches the caller of
    [createWebhook] or [deleteWebhook]: the call returns normally, or it
    fails with the [TypeError] of its own handler reading
    [error.response.data] of an error that has no response. *)
Theorem bot_webhook_calls_mask_errors (W : World) (this : Client.t)
    (channelId webhookName webhookImage webhookId : string) (tr : trace) :
  match fst (Client.createWebhook W this channelId webhookName webhookImage tr) with
  | Ok _ => True
  | Throw e => e = cannot_read JUndefined "data"
  end
  /\ match fst (Client.deleteWebhook W this webhookId tr) with
     | Ok v => v = JUndefined
     | Throw e => e = cannot_read JUndefined "data"
     end.
Proof.
  split.
  - unfold Client.createWebhook. run_monad.
    destruct (axios W tr _) as [e|resp]; simpl.
    + destruct (error_response e); simpl; [exact I | reflexivity].
    + destruct (Client.logging this); simpl;
        destruct (obind (get_prop (data resp) "id") (to_string W))
          as [wid|e1]; simpl;
        try (destruct (obind (get_prop (data resp) "token") (to_string W))
               as [wtoken|e2]; simpl);
        repeat match goal with
          | |- context [error_response ?e] => destruct (error_response e); simpl
          end;
        first [exact I | reflexivity].
  - unfold Client.deleteWebhook. run_monad.
    destruct (axios W tr _) as [e|resp]; simpl.
    + destruct (error_response e); reflexivity.
    + destruct (Client.logging this); reflexivity.
Qed.

(** X13.  When the creation is fulfilled with a webhook object whose
    [id] and [token] have string conversions, [createWebhook] returns the
    object and prints the webhook's URL, token included, by
    [console.log], whether logging is on or off. *)
Theorem createWebhook_prints_url (W : World) (this : Client.t)
    (channelId webhookName webhookImage : string) (tr : trace)
    (resp : AxiosResponse) (wid wtoken : value) (id token : string) :
  axios W tr
    (mkRequest POST (Client.api_v9 ++ "/channels/" ++ channelId ++ "/webhooks")
       (JsonBody (JObj [("name", JStr webhookName); ("avatar", JStr webhookImage)]))
       (Client.auth_header this) None) = inr resp ->
  get_prop (data resp) "id" = Ok wid ->
  to_string W wid = Ok id ->
  get_prop (data resp) "token" = Ok wtoken ->
  to_string W wtoken = Ok token ->
  fst (Client.createWebhook W this channelId webhookName webhookImage tr)
    = Ok (data resp)
  /\ In (EvConsoleLog
           [LStr "Webhook URL:";
            LStr ("https://discord.com/api/webhooks/" ++ id ++ "/" ++ token)])
        (snd (Client.createWebhook W this channelId webhookName webhookImage tr)).
Proof.
  intros Hax Hid Hsid Htok Hstok. unfold Client.createWebhook. run_monad.
  rewrite Hax. destruct (Client.logging this); simpl;
    rewrite Hid, Htok; simpl; rewrite Hsid, Hstok; simpl;
    (split; [reflexivity|]); apply in_or_app; right; left; reflexivity.
Qed.

Lemma createWebhook_prints_url_witness :
  fst (Client.createWebhook
         (mock (fun _ => ok_200 (JObj [("id", JStr "77"); ("token", JStr "s3cret")])) [])
         (Client.mk "T" false) "100" "hook" "img" [])
    = Ok (JObj [("id", JStr "77"); ("token", JStr "s3cret")])
  /\ In (EvConsoleLog
           [LStr "Webhook URL:"; LStr "https://discord.com/api/webhooks/77/s3cret"])
        (snd (Client.createWebhook
                (mock (fun _ => ok_200 (JObj [("id", JStr "77"); ("token", JStr "s3cret")])) [])
                (Client.mk "T" false) "100" "hook" "img" [])).
Proof.
  apply (createWebhook_prints_url
           (mock (fun _ => ok_200 (JObj [("id", JStr "77"); ("token", JStr "s3cret")])) [])
           (Client.mk "T" false) "100" "hook" "img" []
           (mkResponse 200 "OK" (JObj [("id", JStr "77"); ("token", JStr "s3cret")]))
           (JStr "77") (JStr "s3cret") "77" "s3cret"); reflexivity.
Defined.

(** An id without string conversion makes the same call fail inside its
    [try], and the handler turns that into its own [TypeError]. *)
Example createWebhook_unprintable_id :
  fst (Client.createWebhook
         (mock (fun _ => ok_200 (JObj [("id", unprintable_id); ("token", JStr "s")])) [])
         (Client.mk "T" false) "100" "hook" "img" [])
  = Throw (cannot_read JUndefined "data").
Proof. reflexivity. Qed.

(** ** The entry scripts *)

(** X15.  The handler the entry script attaches to [bot.dm(...)] with
    [.catch] never runs: [dm] returns normally whatever the transport
    does, so the script behaves as the script without the handler and
    ['Error sending message:'] is never printed by it. *)
Theorem script_handler_unreachable (W : World) (botToken : string) (tr : trace) :
  Script.main W botToken tr = Script.main_unguarded W botToken tr
  /\ fst (Script.main W botToken tr) = Ok JUndefined.
Proof.
  unfold Script.main, Script.main_unguarded, Client.constructor.
  simpl. run_monad.
  pose proof (dm_returns W (Client.mk botToken true) Script.userId "test" tr) as H.
  destruct (Client.dm W (Client.mk botToken true) Script.userId "test" tr)
    as [[v|e] tr1]; simpl in H; [|discriminate H].
  injection H as ->. split; reflexivity.
Qed.

(** X16.  [src/index.js] hands the constructor one object instead of the
    token: whatever [PROPLAM_BOT] holds, every request the script issues
    carries [Authorization: Bot [object Object]]. *)
Theorem index_script_token_is_object (W : World) (botToken : value) :
  emits (authorized (Client.mk "[object Object]" true)) (Script.index_main W botToken).
Proof.
  intros tr. unfold Script.index_main, Client.constructor. simpl. run_monad.
  destruct (emits_try_catch (authorized (Client.mk "[object Object]" true))
              (Client.dm W (Client.mk "[object Object]" true) Script.userId "test")
              Script.on_error
              (dm_authorized W (Client.mk "[object Object]" true) Script.userId "test")
              (fun e => ltac:(unfold Script.on_error; emits_auto; exact I))
              (tr ++ [EvConsoleLog [LStr (Client.logs_banner W)]])%list)
    as [new [E F]].
  exists (EvConsoleLog [LStr (Client.logs_banner W)] :: new).
  unfold try_catch in E. rewrite E, <- app_assoc.
  split; [reflexivity|]. constructor; [exact I | exact F].
Qed.

(** ** More on what the operations return and send *)

Lemma makeRequest_returns_data (W : World) (this : Client.t)
    (endpoint : string) (m : method) (d : value) (tr : trace)
    (resp : AxiosResponse) :
  axios W tr (Client.dispatcher_request this endpoint m d) = inr resp ->
  fst (Client.makeRequest W this endpoint m d tr) = Ok (data resp).
Proof.
  intros Hax. rewrite (makeRequest_fulfilled W _ _ _ _ _ resp Hax). reflexivity.
Qed.

(** X19.  A forwarder checks nothing about the answer: when its arguments
    are accepted (the channel id of [sendMessage] has a string conversion,
    the emoji of [addReaction] / [removeReaction] has no lone surrogate),
    it issues exactly one request and, that request being fulfilled, it
    returns the data of the response as it is, whatever that value is. *)
Theorem forwarders_return_data (W : World) (this : Client.t) (o : Client.op) :
  Client.bypasses_dispatcher o = false ->
  rejected_arguments W o = None ->
  exists r,
    forall tr,
      requests_of (snd (Client.run W this o tr)) = (requests_of tr ++ [r])%list
      /\ forall resp, axios W tr r = inr resp ->
                      fst (Client.run W this o tr) = Ok (data resp).
Proof.
  intros H Hargs.
  destruct o; try discriminate H; simpl in *;
    unfold Client.sendMessage, Client.addReaction, Client.removeReaction,
      bind, lift;
    try (destruct (to_string W channelId) as [channel|e0];
         [|discriminate Hargs]);
    try (destruct (encodeURIComponent emoji) as [encoded|e0];
         [|discriminate Hargs]);
    cbv beta iota zeta;
    (eexists; intros tr; split;
     [ apply makeRequest_requests
     | intros resp Hax; apply makeRequest_returns_data; exact Hax ]).
Qed.

Lemma forwarders_return_data_witness :
  Client.bypasses_dispatcher (Client.GetGuilds) = false
  /\ rejected_arguments (mock (fun _ => ok_200 (JStr "not a list")) [])
       Client.GetGuilds = None
  /\ exists r,
       forall tr,
         requests_of (snd (Client.run (mock (fun _ => ok_200 (JStr "not a list")) [])
                             (Client.mk "T" true) Client.GetGuilds tr))
           = (requests_of tr ++ [r])%list
         /\ forall resp,
              axios (mock (fun _ => ok_200 (JStr "not a list")) []) tr r = inr resp ->
              fst (Client.run (mock (fun _ => ok_200 (JStr "not a list")) [])
                     (Client.mk "T" true) Client.GetGuilds tr) = Ok (data resp).
Proof.
  split; [reflexivity|]. split; [reflexivity|].
  apply (forwarders_return_data (mock (fun _ => ok_200 (JStr "not a list")) [])
           (Client.mk "T" true) Client.GetGuilds); reflexivity.
Defined.

(** X17.  Nothing checks the id of a created DM channel: when no channel
    is open and the creation is fulfilled with a body that has no [id],
    [dm] still sends, to [/channels/undefined/messages]. *)
Theorem dm_sends_to_undefined (W : World) (this : Client.t)
    (userId message : string) (tr : trace) (listed created : AxiosResponse) :
  axios W tr (Client.dm_list_request this) = inr listed ->
  data listed = JArr [] ->
  axios W (tr ++ [EvRequest (Client.dm_list_request this)])%list
    (Client.dm_create_request this userId) = inr created ->
  get_prop (data created) "id" = Ok JUndefined ->
  fst (Client.dm W this userId message tr) = Ok JUndefined
  /\ requests_of (snd (Client.dm W this userId message tr)) =
     (requests_of tr ++
      [Client.dm_list_request this;
       Client.dm_create_request this userId;
       mkRequest POST "https://discord.com/api/v10/channels/undefined/messages"
         (JsonBody (JObj [("content", JStr message)]))
         (Client.dispatcher_headers this) None])%list.
Proof.
  intros Hlist Hempty Hcreate Hid.
  split; [apply dm_returns|].
  unfold Client.dm, Client.openOrGetDm, Client.isDmOpen. run_monad.
  rewrite Hlist, Hempty. simpl. rewrite Hcreate, Hid. simpl.
  pose proof (sendMessage_requests W this JUndefined message
                ((tr ++ [EvRequest (Client.dm_list_request this)]) ++
                 [EvRequest (Client.dm_create_request this userId)])%list) as Hsend.
  simpl in Hsend.
  destruct (Client.sendMessage W this JUndefined message _)
    as [[v|e] tr2]; simpl in *;
    rewrite ?requests_of_app, Hsend, !requests_of_app; simpl;
    rewrite ?app_nil_r, <- !app_assoc; reflexivity.
Qed.

Lemma dm_sends_to_undefined_witness :
  fst (Client.dm (mock (dm_server [] (JObj [("message", JStr "created")])) [])
         (Client.mk "T" true) "u" "hi" []) = Ok JUndefined
  /\ requests_of
       (snd (Client.dm (mock (dm_server [] (JObj [("message", JStr "created")])) [])
               (Client.mk "T" true) "u" "hi" [])) =
     [Client.dm_list_request (Client.mk "T" true);
      Client.dm_create_request (Client.mk "T" true) "u";
      mkRequest POST "https://discord.com/api/v10/channels/undefined/messages"
        (JsonBody (JObj [("content", JStr "hi")]))
        (Client.dispatcher_headers (Client.mk "T" true)) None].
Proof.
  apply (dm_sends_to_undefined
           (mock (dm_server [] (JObj [("message", JStr "created")])) [])
           (Client.mk "T" true) "u" "hi" []
           (mkResponse 200 "OK" (JArr []))
           (mkResponse 200 "OK" (JObj [("message", JStr "created")])));
    reflexivity.
Defined.

(** X18.  [sendSimpleEmbed(content)] issues the request that
    [sendMultipleEmbeds([{description: content}])] issues, a POST of
    [{embeds: [{description: content}]}] to the webhook URL, and returns
    as it does; the two differ in the line they print only. *)
Theorem sendSimpleEmbed_is_one_embed (W : World) (this : WebhookUtils.t)
    (content : string) (tr : trace) :
  fst (WebhookUtils.sendSimpleEmbed W this content tr) =
    fst (WebhookUtils.sendMultipleEmbeds W this
           [JObj [("description", JStr content)]] tr)
  /\ requests_of (snd (WebhookUtils.sendSimpleEmbed W this content tr)) =
     requests_of (snd (WebhookUtils.sendMultipleEmbeds W this
                         [JObj [("description", JStr content)]] tr))
  /\ requests_of (snd (WebhookUtils.sendSimpleEmbed W this content tr)) =
     (requests_of tr ++
      [mkRequest POST (WebhookUtils.webhookUrl this)
         (JsonBody (JObj [("embeds", JArr [JObj [("description", JStr content)]])]))
         [] None])%list.
Proof.
  unfold WebhookUtils.sendSimpleEmbed, WebhookUtils.sendMultipleEmbeds,
    WebhookUtils.post. run_monad.
  match goal with
  | |- context [axios W ?t ?r] => destruct (axios W t r) as [e|resp]
  end; simpl; (split; [reflexivity|]); rewrite !requests_of_app; simpl;
    rewrite ?app_nil_r; split; reflexivity.
Qed.
